(** * Late Show API: a model of [models.py], [routes.py] and [app.py]

    The development follows the Python sources function by function.

    - Python values are the inductive [pyval]; [bool] is kept apart from
      [int] as a constructor, and [isinstance_int] accepts both, because
      in Python [bool] is a subclass of [int].
    - A raised exception is the [Raise] branch of [result]; code that
      touches the SQLAlchemy session runs in [action], a state and
      exception monad over [State].
    - The relational store is three finite maps from primary key to row.
      Python integers are unbounded and so are the keys of the model. The
      storage engine holds keys of 64 bits: where a statement depends on
      what the lookup of an arbitrary integer finds, the integer is taken
      in that range ([int64]).
    - What the SQL driver does with a Python value that is not an integer
      is not decided by this repository; it is the interface [Engine].
    - The dispatch of a request, with the scope in which Flask looks an
      error handler up, is [full_dispatch_request]. A path is matched as
      the rules are written and the body is taken as parsed: the
      redirects of the router and the failures of the JSON parser are
      not modelled. *)

From Stdlib Require Import ZArith Ascii String Floats.
From stdpp Require Import base option list gmap strings sorting.

Open Scope Z_scope.

(** ** Python values and exceptions *)

#[warnings="-register-all"]
Inductive pyval : Type :=
| PNone
| PBool (b : bool)
| PInt (z : Z)
| PFloat (f : float)
| PStr (s : string)
| PList (l : list pyval)
| PDict (d : gmap string pyval).

Abbreviation dict := (gmap string pyval).

Inductive exn : Type :=
| AttributeError (msg : string)
| TypeError (msg : string)
| ValueError (msg : string)
| EngineError (msg : string).

Inductive result (A : Type) : Type :=
| Return (a : A)
| Raise (e : exn).
Arguments Return {A} a.
Arguments Raise {A} e.

#[global] Instance result_ret : MRet result := λ A a, Return a.
#[global] Instance result_bind : MBind result := λ A B f m,
  match m with
  | Return a => f a
  | Raise e => Raise e
  end.

(** [x is None] *)
Definition is_None (v : pyval) : bool :=
  match v with PNone => true | _ => false end.

(** [isinstance(x, int)]: true of [int] and of its subclass [bool]. *)
Definition isinstance_int (v : pyval) : bool :=
  match v with PInt _ | PBool _ => true | _ => false end.

(** [type(x).__name__] *)
Definition type_name (v : pyval) : string :=
  match v with
  | PNone => "NoneType"
  | PBool _ => "bool"
  | PInt _ => "int"
  | PFloat _ => "float"
  | PStr _ => "str"
  | PList _ => "list"
  | PDict _ => "dict"
  end.

(** [x < n] and [x > n] against an integer literal. Numbers compare by
    value, [True] and [False] as 1 and 0; any other operand raises. *)
Definition py_lt (v : pyval) (n : Z) : result bool :=
  match v with
  | PInt z => Return (z <? n)
  | PBool b => Return (Z.b2z b <? n)
  | PFloat f => Return (PrimFloat.ltb f (PrimFloat.of_uint63 (Uint63.of_Z n)))
  | _ => Raise (TypeError ("'<' not supported between instances of '"
                           +:+ type_name v +:+ "' and 'int'"))
  end.

Definition py_gt (v : pyval) (n : Z) : result bool :=
  match v with
  | PInt z => Return (n <? z)
  | PBool b => Return (n <? Z.b2z b)
  | PFloat f => Return (PrimFloat.ltb (PrimFloat.of_uint63 (Uint63.of_Z n)) f)
  | _ => Raise (TypeError ("'>' not supported between instances of '"
                           +:+ type_name v +:+ "' and 'int'"))
  end.

(** [data.get(key)]: only a dict has the method; a missing key and a key
    bound to [None] both give [None]. *)
Definition py_get (data : pyval) (key : string) : result pyval :=
  match data with
  | PDict d => Return (default PNone (d !! key))
  | _ => Raise (AttributeError ("'" +:+ type_name data
                                +:+ "' object has no attribute 'get'"))
  end.

(** ** The store: tables, ORM instances, session *)

Module Episode.
Record row := Row { date : string; number : Z }.
Record t := Obj { id : Z; fields : row }.
End Episode.

Module Guest.
Record row := Row { name : string; occupation : string }.
Record t := Obj { id : Z; fields : row }.
End Guest.

Module Appearance.
Record row := Row { rating : Z; guest_id : Z; episode_id : Z }.
Record t := Obj { id : Z; fields : row }.
(** An instance that was constructed but not flushed yet: its
    attributes are still the Python values it was given. *)
Record transient := New {
  new_rating : pyval; new_guest_id : pyval; new_episode_id : pyval }.
End Appearance.

Record DB := Tables {
  episodes : gmap Z Episode.row;
  guests : gmap Z Guest.row;
  appearances : gmap Z Appearance.row }.

(** [pending] is [db.session.new]: objects added and not yet committed.
    A request starts with nothing pending, because the session is removed
    at teardown (see [wsgi_app]); the flush that a query triggers on
    pending objects is therefore not modelled. *)
Record State := Store { db : DB; pending : list Appearance.transient }.

Definition action (A : Type) : Type := State → result A * State.

#[global] Instance action_ret : MRet action := λ A a st, (Return a, st).
#[global] Instance action_bind : MBind action := λ A B f m st,
  match m st with
  | (Return a, st') => f a st'
  | (Raise e, st') => (Raise e, st')
  end.

Definition lift {A} (r : result A) : action A := λ st, (r, st).
Definition query {A} (q : DB → result A) : action A := λ st, (q (db st), st).

(** The SQL driver. [ident_key v] is the primary key that [Query.get(v)]
    looks up ([None]: no key can equal [v]); [bind_int v] is the integer
    an INTEGER column holds after [v] was inserted. Both may raise. The
    laws fix what is known: Python integers are taken as they are, and
    [True]/[False] are bound as 1 and 0. *)
Class Engine := {
  ident_key : pyval → result (option Z);
  bind_int : pyval → result Z;
  ident_key_int z : ident_key (PInt z) = Return (Some z);
  bind_int_int z : bind_int (PInt z) = Return z;
  bind_int_bool b : bind_int (PBool b) = Return (Z.b2z b) }.

(** An engine that accepts integers and nothing else. *)
Definition strict_key (v : pyval) : result (option Z) :=
  match v with
  | PInt z => Return (Some z)
  | PBool b => Return (Some (Z.b2z b))
  | _ => Raise (EngineError "type not supported")
  end.

Definition strict_bind (v : pyval) : result Z :=
  match v with
  | PInt z => Return z
  | PBool b => Return (Z.b2z b)
  | _ => Raise (EngineError "type not supported")
  end.

Definition strict_engine : Engine :=
  {| ident_key := strict_key; bind_int := strict_bind;
     ident_key_int := λ _, eq_refl; bind_int_int := λ _, eq_refl;
     bind_int_bool := λ _, eq_refl |}.

(** The rowid SQLite gives to a new row: one more than the largest in
    use, 1 in an empty table. *)
Definition next_rowid {A} (tbl : gmap Z A) : Z :=
  match (map_to_list tbl).*1 with
  | [] => 1
  | k :: ks => foldr Z.max k ks + 1
  end.

Section orm.
Context `{Engine}.

(** [Episode.query.get(ident)] *)
Definition Episode_query_get (ident : pyval) (d : DB) : result (option Episode.t) :=
  k ← ident_key ident;
  mret (k ≫= λ z, Episode.Obj z <$> episodes d !! z).

(** [Guest.query.get(ident)] *)
Definition Guest_query_get (ident : pyval) (d : DB) : result (option Guest.t) :=
  k ← ident_key ident;
  mret (k ≫= λ z, Guest.Obj z <$> guests d !! z).

(** INSERT of one flushed instance. *)
Definition insert_appearance (a : Appearance.transient) (d : DB) : result (Z * DB) :=
  r ← bind_int (Appearance.new_rating a);
  g ← bind_int (Appearance.new_guest_id a);
  e ← bind_int (Appearance.new_episode_id a);
  let k := next_rowid (appearances d) in
  mret (k, Tables (episodes d) (guests d)
                  (<[k := Appearance.Row r g e]> (appearances d))).

(** The flush at commit: pending instances are inserted in the order
    they were added; the keys they received are returned. *)
Fixpoint flush (new : list Appearance.transient) (d : DB) : result (list Z * DB) :=
  match new with
  | [] => mret ([], d)
  | a :: rest =>
      '(k, d1) ← insert_appearance a d;
      '(ks, d2) ← flush rest d1;
      mret (k :: ks, d2)
  end.

(** [db.session.add(obj)]; the position in [pending] stands for the
    object. *)
Definition session_add (a : Appearance.transient) : action nat :=
  λ st, (Return (length (pending st)), Store (db st) (pending st ++ [a])).

(** [db.session.commit()]: all or nothing. When the flush raises, the
    transaction is not committed and the session keeps its objects. *)
Definition session_commit : action (list Z) :=
  λ st, match flush (pending st) (db st) with
        | Return (ks, d') => (Return ks, Store d' [])
        | Raise e => (Raise e, st)
        end.

(** [db.session.rollback()] *)
Definition session_rollback : action unit :=
  λ st, (Return (), Store (db st) []).
End orm.

(** ** models.py *)

(** [Episode.query.order_by(Episode.number).all()] *)
Definition by_number : relation Episode.t :=
  λ a b, Episode.number (Episode.fields a) ≤ Episode.number (Episode.fields b).

#[global] Instance by_number_dec : RelDecision by_number.
Proof. intros a b. unfold by_number. apply _. Defined.

Definition Episode_query_order_by_number_all (d : DB) : list Episode.t :=
  merge_sort by_number (uncurry Episode.Obj <$> map_to_list (episodes d)).

(** [Guest.query.order_by(Guest.name).all()]: the default collation
    compares the names byte by byte. *)
Definition by_name : relation Guest.t :=
  λ a b, String.le (Guest.name (Guest.fields a)) (Guest.name (Guest.fields b)).

#[global] Instance by_name_dec : RelDecision by_name.
Proof. intros a b. unfold by_name. apply _. Defined.

Definition Guest_query_order_by_name_all (d : DB) : list Guest.t :=
  merge_sort by_name (uncurry Guest.Obj <$> map_to_list (guests d)).

(** [self.appearances.all()] of an episode and of a guest. *)
Definition Episode_appearances_all (self : Episode.t) (d : DB) : list Appearance.t :=
  uncurry Appearance.Obj <$>
    map_to_list (filter (λ kr, Appearance.episode_id kr.2 = Episode.id self) (appearances d)).

Definition Guest_appearances_all (self : Guest.t) (d : DB) : list Appearance.t :=
  uncurry Appearance.Obj <$>
    map_to_list (filter (λ kr, Appearance.guest_id kr.2 = Guest.id self) (appearances d)).

(** [self.guest] and [self.episode]: [None] when the reference dangles. *)
Definition Appearance_guest (self : Appearance.t) (d : DB) : option Guest.t :=
  let k := Appearance.guest_id (Appearance.fields self) in
  Guest.Obj k <$> guests d !! k.

Definition Appearance_episode (self : Appearance.t) (d : DB) : option Episode.t :=
  let k := Appearance.episode_id (Appearance.fields self) in
  Episode.Obj k <$> episodes d !! k.

(** The dict literal that opens [Episode.to_dict]. *)
Definition Episode_result (self : Episode.t) : dict :=
  {[ "id" := PInt (Episode.id self);
     "date" := PStr (Episode.date (Episode.fields self));
     "number" := PInt (Episode.number (Episode.fields self)) ]}.

(** The dict literal that opens [Guest.to_dict]. *)
Definition Guest_result (self : Guest.t) : dict :=
  {[ "id" := PInt (Guest.id self);
     "name" := PStr (Guest.name (Guest.fields self));
     "occupation" := PStr (Guest.occupation (Guest.fields self)) ]}.

(** [Appearance.validate_rating(self, key, rating)] *)
Definition Appearance_validate_rating (key : string) (rating : pyval) : result pyval :=
  low ← py_lt rating 1;
  out ← (if low : bool then mret true else py_gt rating 5);
  if out : bool
  then Raise (ValueError "Rating must be between 1 and 5 (inclusive)")
  else mret rating.

(** [Appearance(rating=..., guest_id=..., episode_id=...)]: the validator
    runs when [rating] is assigned. *)
Definition Appearance_init (rating guest_id episode_id : pyval)
    : result Appearance.transient :=
  rating ← Appearance_validate_rating "rating" rating;
  mret (Appearance.New rating guest_id episode_id).

(** [Appearance.to_dict(self, include_guest, include_episode)]. The two
    nested calls [self.guest.to_dict()] and [self.episode.to_dict()] leave
    [include_appearances] at its default [False], so each returns its
    opening dict literal; on a dangling reference the receiver is [None]. *)
Definition Appearance_to_dict (self : Appearance.t)
    (include_guest include_episode : bool) (d : DB) : result dict :=
  let result : dict :=
    {[ "id" := PInt (Appearance.id self);
       "rating" := PInt (Appearance.rating (Appearance.fields self));
       "guest_id" := PInt (Appearance.guest_id (Appearance.fields self));
       "episode_id" := PInt (Appearance.episode_id (Appearance.fields self)) ]} in
  result ←
    (if include_guest then
       match Appearance_guest self d with
       | Some guest => mret (<["guest" := PDict (Guest_result guest)]> result)
       | None => Raise (AttributeError "'NoneType' object has no attribute 'to_dict'")
       end
     else mret result);
  result ←
    (if include_episode then
       match Appearance_episode self d with
       | Some episode => mret (<["episode" := PDict (Episode_result episode)]> result)
       | None => Raise (AttributeError "'NoneType' object has no attribute 'to_dict'")
       end
     else mret result);
  mret result.

(** [Episode.to_dict(self, include_appearances)] *)
Definition Episode_to_dict (self : Episode.t) (include_appearances : bool)
    (d : DB) : result dict :=
  let result := Episode_result self in
  if include_appearances then
    items ← mapM (λ appearance, Appearance_to_dict appearance true false d)
                 (Episode_appearances_all self d);
    mret (<["appearances" := PList (PDict <$> items)]> result)
  else mret result.

(** [Guest.to_dict(self, include_appearances)] *)
Definition Guest_to_dict (self : Guest.t) (include_appearances : bool)
    (d : DB) : result dict :=
  let result := Guest_result self in
  if include_appearances then
    items ← mapM (λ appearance, Appearance_to_dict appearance false true d)
                 (Guest_appearances_all self d);
    mret (<["appearances" := PList (PDict <$> items)]> result)
  else mret result.

(** ** routes.py *)

Inductive body : Type :=
| Json (v : pyval)      (* a JSON document *)
| ErrorPage             (* the framework's own HTML error page *)
| NoContent.

Record response := Response { payload : body; status : Z }.

Definition jsonify (v : pyval) : body := Json v.

(** [GET /episodes] *)
Definition get_episodes : action response :=
  episodes ← query (λ d, mret (Episode_query_order_by_number_all d));
  episodes_list ← query (λ d, mapM (λ episode, Episode_to_dict episode false d) episodes);
  mret (Response (jsonify (PList (PDict <$> episodes_list))) 200).

(** [GET /guests] *)
Definition get_guests : action response :=
  guests ← query (λ d, mret (Guest_query_order_by_name_all d));
  guests_list ← query (λ d, mapM (λ guest, Guest_to_dict guest false d) guests);
  mret (Response (jsonify (PList (PDict <$> guests_list))) 200).

Section routes.
Context `{Engine}.

(** [GET /episodes/<int:episode_id>] *)
Definition get_episode (episode_id : Z) : action response :=
  episode ← query (Episode_query_get (PInt episode_id));
  match episode with
  | None =>
      mret (Response (jsonify (PDict {[ "error" := PStr "Episode not found" ]})) 404)
  | Some episode =>
      episode_data ← query (Episode_to_dict episode true);
      mret (Response (jsonify (PDict episode_data)) 200)
  end.

(** The instance behind handle [h] after a commit that returned the
    keys [ks]: its attributes are reloaded from its row. *)
Definition refreshed (h : nat) (ks : list Z) (d : DB) : result Appearance.t :=
  match ks !! h ≫= λ k, Appearance.Obj k <$> appearances d !! k with
  | Some a => Return a
  | None => Raise (EngineError "instance is not persistent")
  end.

(** [POST /appearances]; [data] is what [request.get_json()] returned. *)
Definition create_appearance (data : pyval) : action response :=
  rating ← lift (py_get data "rating");
  episode_id ← lift (py_get data "episode_id");
  guest_id ← lift (py_get data "guest_id");
  let errors : list string := [] in
  errors ←
    (if is_None rating then mret (errors ++ ["Rating is required"])
     else if negb (isinstance_int rating)
     then mret (errors ++ ["Rating must be an integer"])
     else
       low ← lift (py_lt rating 1);
       out ← (if low : bool then mret true else lift (py_gt rating 5));
       if out : bool
       then mret (errors ++ ["Rating must be between 1 and 5 (inclusive)"])
       else mret errors);
  errors ←
    (if is_None episode_id then mret (errors ++ ["Episode ID is required"])
     else
       episode ← query (Episode_query_get episode_id);
       match episode with
       | None => mret (errors ++ ["Episode not found"])
       | Some _ => mret errors
       end);
  errors ←
    (if is_None guest_id then mret (errors ++ ["Guest ID is required"])
     else
       guest ← query (Guest_query_get guest_id);
       match guest with
       | None => mret (errors ++ ["Guest not found"])
       | Some _ => mret errors
       end);
  match errors with
  | _ :: _ =>
      mret (Response (jsonify (PDict {[ "errors" := PList (PStr <$> errors) ]})) 400)
  | [] =>
      appearance ← lift (Appearance_init rating guest_id episode_id);
      handle ← session_add appearance;
      keys ← session_commit;
      appearance ← query (refreshed handle keys);
      created ← query (Appearance_to_dict appearance true true);
      mret (Response (jsonify (PDict created)) 201)
  end.

(** [@api.errorhandler(404)] *)
Definition not_found (error : Z) : action response :=
  mret (Response (jsonify (PDict {[ "error" := PStr "Resource not found" ]})) 404).

(** [@api.errorhandler(500)] *)
Definition internal_error (error : Z) : action response :=
  _ ← session_rollback;
  mret (Response (jsonify (PDict {[ "error" := PStr "Internal server error" ]})) 500).
End routes.

(** ** app.py: the URL map and the dispatch of one request

    [create_app] registers the blueprint [api] at prefix [/] and one view
    of the application itself, [index]. The two error handlers of
    routes.py are registered with [api.errorhandler], that is, in the
    scope of the blueprint. Flask looks an error handler up in the
    blueprint of the matched rule and then in the application; a request
    that matches no rule has no blueprint. *)

Inductive http_method := GET | HEAD | POST | PUT | PATCH | DELETE | OPTIONS.

#[global] Instance http_method_eq_dec : EqDecision http_method.
Proof. solve_decision. Defined.

Record request := Request {
  method : http_method; path : string; get_json : pyval }.

Inductive endpoint :=
| index
| api_get_episodes
| api_get_episode (episode_id : Z)
| api_get_guests
| api_create_appearance.

Definition digit (a : ascii) : option Z :=
  let n := Z.of_N (Ascii.N_of_ascii a) in
  if bool_decide (48 ≤ n ≤ 57) then Some (n - 48) else None.

Fixpoint digits (acc : Z) (s : string) : option Z :=
  match s with
  | EmptyString => Some acc
  | String a s => d ← digit a; digits (10 * acc + d) s
  end.

(** The [int] converter of a rule: one or more decimal digits. *)
Definition int_converter (s : string) : option Z :=
  match s with
  | EmptyString => None
  | _ => digits 0 s
  end.

Fixpoint strip_prefix (p s : string) : option string :=
  match p, s with
  | EmptyString, _ => Some s
  | String a p, String b s => if bool_decide (a = b) then strip_prefix p s else None
  | _, _ => None
  end.

Definition url_map (p : string) : option endpoint :=
  if bool_decide (p = "/") then Some index
  else if bool_decide (p = "/episodes") then Some api_get_episodes
  else if bool_decide (p = "/guests") then Some api_get_guests
  else if bool_decide (p = "/appearances") then Some api_create_appearance
  else
    match strip_prefix "/episodes/" p with
    | Some rest => api_get_episode <$> int_converter rest
    | None => None
    end.

(** The methods of each rule: those the decorator names, [HEAD] with
    [GET], and [OPTIONS]. *)
Definition allowed (e : endpoint) (m : http_method) : bool :=
  match e, m with
  | _, OPTIONS => true
  | api_create_appearance, POST => true
  | api_create_appearance, _ => false
  | _, (GET | HEAD) => true
  | _, _ => false
  end.

Definition blueprint_of (e : endpoint) : option string :=
  match e with
  | index => None
  | _ => Some "api"
  end.

Section app.
Context `{Engine}.

Definition index_view : action response :=
  mret (Response (jsonify (PDict
    {[ "message" := PStr "Welcome to the Late Show API";
       "status" := PStr "running";
       "endpoints" := PDict
         {[ "episodes" := PStr "/episodes";
            "episode_detail" := PStr "/episodes/<id>";
            "guests" := PStr "/guests";
            "appearances" := PStr "/appearances" ]} ]})) 200).

Definition view (e : endpoint) (req : request) : action response :=
  match e with
  | index => index_view
  | api_get_episodes => get_episodes
  | api_get_episode episode_id => get_episode episode_id
  | api_get_guests => get_guests
  | api_create_appearance => create_appearance (get_json req)
  end.

(** The handlers registered in each scope ([None]: the application). *)
Definition error_handler_spec (scope : option string) (code : Z)
    : option (action response) :=
  if bool_decide (scope = Some "api") then
    if bool_decide (code = 404) then Some (not_found code)
    else if bool_decide (code = 500) then Some (internal_error code)
    else None
  else None.

(** The handler of [code] for a request in blueprint [bp]; without one
    the framework answers with its own error page. *)
Definition handle_error (bp : option string) (code : Z) : action response :=
  let scopes := match bp with Some _ => [bp; None] | None => [None] end in
  match list_find is_Some ((λ s, error_handler_spec s code) <$> scopes) with
  | Some (_, Some h) => h
  | _ => mret (Response ErrorPage code)
  end.

Definition full_dispatch_request (req : request) (st : State) : response * State :=
  match url_map (path req) with
  | None => match handle_error None 404 st with
            | (Return r, st') => (r, st')
            | (Raise _, st') => (Response ErrorPage 500, st')
            end
  | Some e =>
      if negb (allowed e (method req)) then (Response ErrorPage 405, st)
      else if bool_decide (method req = OPTIONS) then (Response NoContent 200, st)
      else
        match view e req st with
        | (Return r, st') =>
            (if bool_decide (method req = HEAD) then Response NoContent (status r) else r, st')
        | (Raise _, st') =>
            match handle_error (blueprint_of e) 500 st' with
            | (Return r, st'') => (r, st'')
            | (Raise _, st'') => (Response ErrorPage 500, st'')
            end
        end
  end.

(** One request from start to teardown, where the session is removed. *)
Definition wsgi_app (req : request) (st : State) : response * State :=
  let '(r, st') := full_dispatch_request req st in
  (r, Store (db st') []).
End app.

(** ** The seeded store of seed.py *)

Definition seed_episodes : gmap Z Episode.row :=
  list_to_map
    [ (1, Episode.Row "1/11/99" 1); (2, Episode.Row "1/12/99" 2);
      (3, Episode.Row "1/13/99" 3); (4, Episode.Row "1/14/99" 4);
      (5, Episode.Row "1/15/99" 5); (6, Episode.Row "1/18/99" 6);
      (7, Episode.Row "1/19/99" 7); (8, Episode.Row "1/20/99" 8);
      (9, Episode.Row "1/21/99" 9); (10, Episode.Row "1/22/99" 10) ].

Definition seed_guests : gmap Z Guest.row :=
  list_to_map
    [ (1, Guest.Row "Michael J. Fox" "actor");
      (2, Guest.Row "Sandra Bernhard" "Comedian");
      (3, Guest.Row "Tracey Ullman" "television actress");
      (4, Guest.Row "Bradley Whitford" "actor");
      (5, Guest.Row "Janeane Garofalo" "comedian");
      (6, Guest.Row "William Baldwin" "actor");
      (7, Guest.Row "John Turturro" "actor");
      (8, Guest.Row "Minnie Driver" "actress") ].

Definition seed_appearances : gmap Z Appearance.row :=
  list_to_map
    (zip (Z.of_nat <$> seq 1 26)
      [ Appearance.Row 4 1 1; Appearance.Row 5 2 1; Appearance.Row 3 3 1;
        Appearance.Row 5 3 2; Appearance.Row 4 4 2; Appearance.Row 5 5 2;
        Appearance.Row 4 1 3; Appearance.Row 3 6 3; Appearance.Row 5 7 3;
        Appearance.Row 4 2 4; Appearance.Row 5 8 4;
        Appearance.Row 3 4 5; Appearance.Row 4 5 5; Appearance.Row 5 6 5;
        Appearance.Row 5 1 6; Appearance.Row 4 3 6;
        Appearance.Row 3 7 7; Appearance.Row 5 8 7; Appearance.Row 4 2 7;
        Appearance.Row 4 5 8; Appearance.Row 5 6 8;
        Appearance.Row 3 1 9; Appearance.Row 4 4 9; Appearance.Row 5 7 9;
        Appearance.Row 5 3 10; Appearance.Row 4 8 10 ]).

Definition seeded : State :=
  Store (Tables seed_episodes seed_guests seed_appearances) [].

Definition post (fields : list (string * pyval)) : pyval :=
  PDict (list_to_map fields).


(** ** Auxiliary definitions for the statements *)

(** Every stored rating lies between 1 and 5. *)
Definition ratings_in_range (d : DB) : Prop :=
  map_Forall (λ _ r, 1 ≤ Appearance.rating r ≤ 5) (appearances d).

(** No appearance refers to a guest or an episode that does not exist. *)
Definition refs_ok (d : DB) : Prop :=
  map_Forall (λ _ r, is_Some (guests d !! Appearance.guest_id r)
                     ∧ is_Some (episodes d !! Appearance.episode_id r))
             (appearances d).

(** The number of appearance rows that refer to episode [k]. *)
Definition appearance_count (k : Z) (d : DB) : nat :=
  size (filter (λ kr, Appearance.episode_id kr.2 = k) (appearances d)).

(** What one entry of an episode's [appearances] array looks like. *)
Definition nested_in_episode (d : DB) (a : Appearance.t) (item : dict) : Prop :=
  item !! "id" = Some (PInt (Appearance.id a))
  ∧ item !! "episode_id" = Some (PInt (Appearance.episode_id (Appearance.fields a)))
  ∧ item !! "episode" = None
  ∧ ∃ g, guests d !! Appearance.guest_id (Appearance.fields a) = Some g
         ∧ item !! "guest"
             = Some (PDict (Guest_result
                 (Guest.Obj (Appearance.guest_id (Appearance.fields a)) g))).

(** The blocks of [create_appearance], one by one: the check of the
    rating, of the episode, of the guest, and the creation. *)
Definition rating_errors (rating : pyval) (errors : list string) : result (list string) :=
  if is_None rating then mret (errors ++ ["Rating is required"])
  else if negb (isinstance_int rating)
  then mret (errors ++ ["Rating must be an integer"])
  else
    low ← py_lt rating 1;
    out ← (if low : bool then mret true else py_gt rating 5);
    if out : bool
    then mret (errors ++ ["Rating must be between 1 and 5 (inclusive)"])
    else mret errors.

Section blocks.
Context `{Engine}.

Definition episode_errors (episode_id : pyval) (errors : list string) (d : DB)
    : result (list string) :=
  if is_None episode_id then mret (errors ++ ["Episode ID is required"])
  else
    episode ← Episode_query_get episode_id d;
    match episode with
    | None => mret (errors ++ ["Episode not found"])
    | Some _ => mret errors
    end.

Definition guest_errors (guest_id : pyval) (errors : list string) (d : DB)
    : result (list string) :=
  if is_None guest_id then mret (errors ++ ["Guest ID is required"])
  else
    guest ← Guest_query_get guest_id d;
    match guest with
    | None => mret (errors ++ ["Guest not found"])
    | Some _ => mret errors
    end.

Definition persist (rating guest_id episode_id : pyval) : action response :=
  appearance ← lift (Appearance_init rating guest_id episode_id);
  handle ← session_add appearance;
  keys ← session_commit;
  appearance ← query (refreshed handle keys);
  created ← query (Appearance_to_dict appearance true true);
  mret (Response (jsonify (PDict created)) 201).
End blocks.

(** The violations of a request in the words of the specification: a
    field is missing when the body gives no value for it; a rating is an
    integer or it is not; an identifier names a row or it does not. *)
Definition spec_rating_violations (rating : pyval) : list string :=
  match rating with
  | PNone => ["Rating is required"]
  | PInt z =>
      if bool_decide (1 ≤ z ≤ 5) then []
      else ["Rating must be between 1 and 5 (inclusive)"]
  | _ => ["Rating must be an integer"]
  end.

Definition spec_episode_violations (d : DB) (episode_id : pyval) : list string :=
  match episode_id with
  | PNone => ["Episode ID is required"]
  | PInt z => if episodes d !! z is Some _ then [] else ["Episode not found"]
  | _ => ["Episode not found"]
  end.

Definition spec_guest_violations (d : DB) (guest_id : pyval) : list string :=
  match guest_id with
  | PNone => ["Guest ID is required"]
  | PInt z => if guests d !! z is Some _ then [] else ["Guest not found"]
  | _ => ["Guest not found"]
  end.

Definition spec_violations (d : DB) (rating episode_id guest_id : pyval) : list string :=
  spec_rating_violations rating
    ++ spec_episode_violations d episode_id ++ spec_guest_violations d guest_id.

(** An identifier is absent or an integer. *)
Definition identifier (v : pyval) : Prop := v = PNone ∨ ∃ z, v = PInt z.

(** The integers that the storage engine holds as keys. *)
Definition int64 (z : Z) : Prop := - 2 ^ 63 ≤ z < 2 ^ 63.

(** An identifier that is absent or an integer of that range. *)
Definition identifier64 (v : pyval) : Prop := v = PNone ∨ ∃ z, v = PInt z ∧ int64 z.

(** The serialized form of a created appearance: key [k], rating [r],
    guest [g] and episode [e] with their rows. *)
Definition created_dict (k r g e : Z) (gr : Guest.row) (er : Episode.row) : dict :=
  <["episode" := PDict (Episode_result (Episode.Obj e er))]>
    (<["guest" := PDict (Guest_result (Guest.Obj g gr))]>
       {[ "id" := PInt k; "rating" := PInt r;
          "guest_id" := PInt g; "episode_id" := PInt e ]}).

(** The state after one row was added to [appearances] and committed. *)
Definition with_appearance (st : State) (k : Z) (row : Appearance.row) : State :=
  Store (Tables (episodes (db st)) (guests (db st))
                (<[k := row]> (appearances (db st)))) [].

(** The states of the running application: the seeded store, and every
    state that a request leads to. *)
Inductive reachable `{Engine} : State → Prop :=
| reachable_seeded : reachable seeded
| reachable_request req st : reachable st → reachable (wsgi_app req st).2.

(** ** seed.py *)

(** What the script reads from [data/guest_data.csv]: no file at all
    ([os.path.exists] is false), or the rows that [csv.DictReader]
    yields, each a dict from column name to a string or [None], and
    whether the reading then fails. *)
Inductive guest_csv :=
| NoCsv
| Csv (rows : list dict) (fails : bool).

(** The literals of [seed_database] and [create_sample_guests]. *)
Definition sample_episodes : list Episode.row :=
  [ Episode.Row "1/11/99" 1; Episode.Row "1/12/99" 2; Episode.Row "1/13/99" 3;
    Episode.Row "1/14/99" 4; Episode.Row "1/15/99" 5; Episode.Row "1/18/99" 6;
    Episode.Row "1/19/99" 7; Episode.Row "1/20/99" 8; Episode.Row "1/21/99" 9;
    Episode.Row "1/22/99" 10 ].

Definition sample_guests : list Guest.row :=
  [ Guest.Row "Michael J. Fox" "actor";
    Guest.Row "Sandra Bernhard" "Comedian";
    Guest.Row "Tracey Ullman" "television actress";
    Guest.Row "Bradley Whitford" "actor";
    Guest.Row "Janeane Garofalo" "comedian";
    Guest.Row "William Baldwin" "actor";
    Guest.Row "John Turturro" "actor";
    Guest.Row "Minnie Driver" "actress" ].

(** [(rating, guest_id, episode_id)] of each [Appearance(...)]. *)
Definition sample_appearances : list (Z * Z * Z) :=
  [ (4, 1, 1); (5, 2, 1); (3, 3, 1);
    (5, 3, 2); (4, 4, 2); (5, 5, 2);
    (4, 1, 3); (3, 6, 3); (5, 7, 3);
    (4, 2, 4); (5, 8, 4);
    (3, 4, 5); (4, 5, 5); (5, 6, 5);
    (5, 1, 6); (4, 3, 6);
    (3, 7, 7); (5, 8, 7); (4, 2, 7);
    (4, 5, 8); (5, 6, 8);
    (3, 1, 9); (4, 4, 9); (5, 7, 9);
    (5, 3, 10); (4, 8, 10) ].

(** The commit of a session that holds new rows of one table: they are
    inserted in the order they were added. *)
Definition insert_all {A} (new : list A) (tbl : gmap Z A) : gmap Z A :=
  foldl (λ t r, <[next_rowid t := r]> t) tbl new.

(** [create_sample_guests()]: the eight guests are added to the session,
    after whatever it holds already. *)
Definition create_sample_guests (session : list Guest.row) : list Guest.row :=
  session ++ sample_guests.

Section seed.
Context `{Engine}.

(** [str.strip] *)
Context (strip : string → string).

(** [row.get(key, '').strip()] *)
Definition csv_field (row : dict) (key : string) : result string :=
  match default (PStr "") (row !! key) with
  | PStr s => Return (strip s)
  | v => Raise (AttributeError ("'" +:+ type_name v
                                +:+ "' object has no attribute 'strip'"))
  end.

(** The body of the loop: [Guest(name=..., occupation=...)]. *)
Definition csv_guest (row : dict) : result Guest.row :=
  name ← csv_field row "name";
  occupation ← csv_field row "occupation";
  mret (Guest.Row name occupation).

(** The [try] block: the guests that were added to the session, and
    whether the block raised. *)
Fixpoint read_guests (rows : list dict) (fails : bool) (session : list Guest.row)
    : list Guest.row * bool :=
  match rows with
  | [] => (session, fails)
  | row :: rows =>
      match csv_guest row with
      | Return guest => read_guests rows fails (session ++ [guest])
      | Raise _ => (session, true)
      end
  end.

(** [seed_database()], from the store it finds to the store it leaves.
    Each [db.session.commit()] inserts what was added since the last
    one; as in [flush], the engine does not check the foreign keys. *)
Definition seed_database (csv : guest_csv) (d : DB) : result unit * DB :=
  (* Appearance.query.delete(); Guest.query.delete(); Episode.query.delete() *)
  let d := Tables ∅ ∅ ∅ in
  let d := Tables (insert_all sample_episodes (episodes d)) (guests d) (appearances d) in
  let session :=
    match csv with
    | Csv rows fails =>
        let '(session, raised) := read_guests rows fails [] in
        if raised : bool then create_sample_guests session else session
    | NoCsv => create_sample_guests []
    end in
  let d := Tables (episodes d) (insert_all session (guests d)) (appearances d) in
  match mapM (λ '(r, g, e), Appearance_init (PInt r) (PInt g) (PInt e))
             sample_appearances with
  | Raise x => (Raise x, d)
  | Return new =>
      match flush new d with
      | Return (_, d') => (Return (), d')
      | Raise x => (Raise x, d)
      end
  end.
End seed.

(** ** Auxiliary definitions for the further properties *)

(** The number of appearance rows that refer to guest [k]. *)
Definition guest_appearance_count (k : Z) (d : DB) : nat :=
  size (filter (λ kr, Appearance.guest_id kr.2 = k) (appearances d)).

(** What one entry of a guest's [appearances] array looks like. *)
Definition nested_in_guest (d : DB) (a : Appearance.t) (item : dict) : Prop :=
  item !! "id" = Some (PInt (Appearance.id a))
  ∧ item !! "guest_id" = Some (PInt (Appearance.guest_id (Appearance.fields a)))
  ∧ item !! "guest" = None
  ∧ ∃ e, episodes d !! Appearance.episode_id (Appearance.fields a) = Some e
         ∧ item !! "episode"
             = Some (PDict (Episode_result
                 (Episode.Obj (Appearance.episode_id (Appearance.fields a)) e))).

(** * Theorems *)

Ltac unmonad :=
  repeat (unfold mbind, mret, result_bind, result_ret, action_bind, action_ret,
            lift, query in *; simpl in * ).

(** ** Sequencing in [result] *)

Lemma mapM_Return {A B} (f : A → result B) (l : list A) (k : list B) :
  Forall2 (λ x y, f x = Return y) l k → mapM f l = Return k.
Proof.
  induction 1 as [|x y l k Hxy _ IH]; [done|].
  cbn [mapM]. unmonad. by rewrite Hxy, IH.
Qed.

Lemma mapM_total {A B} (f : A → result B) (P : A → B → Prop) (l : list A) :
  Forall (λ x, ∃ y, f x = Return y ∧ P x y) l →
  ∃ k, mapM f l = Return k ∧ Forall2 P l k.
Proof.
  induction 1 as [|x l (y & Hy & HP) _ (k & Hk & HPk)].
  - exists []. by split; [|constructor].
  - exists (y :: k). split; [|by constructor].
    apply mapM_Return. constructor; [done|].
    clear -Hk. revert k Hk. induction l as [|a l IH]; intros k.
    + cbn. unmonad. by intros [= <-].
    + cbn [mapM]. unmonad. destruct (f a) eqn:Ha; [|done].
      destruct (mapM f l) eqn:Hl; [|done]. intros [= <-].
      constructor; [done|]. by apply IH.
Qed.

Lemma mapM_fmap_Return {A B} (f : A → result B) (g : A → B) (l : list A) :
  (∀ x, f x = Return (g x)) → mapM f l = Return (g <$> l).
Proof.
  intros Hfg. apply mapM_Return. induction l; constructor; auto.
Qed.

(** ** The orders of the two listings *)

#[global] Instance by_number_trans : Transitive by_number.
Proof. intros a b c. unfold by_number. lia. Qed.
#[global] Instance by_number_total : Total by_number.
Proof. intros a b. unfold by_number. lia. Qed.
#[global] Instance by_name_trans : Transitive by_name.
Proof. intros a b c. unfold by_name. apply transitivity. Qed.
#[global] Instance by_name_total : Total by_name.
Proof. intros a b. unfold by_name. apply total, _. Qed.

Lemma Episode_objects (t : gmap Z Episode.row) (k : Z) (r : Episode.row) :
  Episode.Obj k r ∈ uncurry Episode.Obj <$> map_to_list t ↔ t !! k = Some r.
Proof.
  rewrite list_elem_of_fmap. split.
  - intros ([k' r'] & [= -> ->] & Hin). by apply elem_of_map_to_list.
  - intros Hk. exists (k, r). split; [done|]. by apply elem_of_map_to_list.
Qed.

Lemma Guest_objects (t : gmap Z Guest.row) (k : Z) (r : Guest.row) :
  Guest.Obj k r ∈ uncurry Guest.Obj <$> map_to_list t ↔ t !! k = Some r.
Proof.
  rewrite list_elem_of_fmap. split.
  - intros ([k' r'] & [= -> ->] & Hin). by apply elem_of_map_to_list.
  - intros Hk. exists (k, r). split; [done|]. by apply elem_of_map_to_list.
Qed.

Lemma Episode_objects_NoDup (t : gmap Z Episode.row) :
  NoDup (uncurry Episode.Obj <$> map_to_list t).
Proof.
  apply NoDup_fmap_2; [|apply NoDup_map_to_list].
  by intros [k r] [k' r'] [= -> ->].
Qed.

Lemma Guest_objects_NoDup (t : gmap Z Guest.row) :
  NoDup (uncurry Guest.Obj <$> map_to_list t).
Proof.
  apply NoDup_fmap_2; [|apply NoDup_map_to_list].
  by intros [k r] [k' r'] [= -> ->].
Qed.

(** ** GET /episodes and GET /guests *)

(** With [include_appearances] left at [False], [to_dict] returns the
    opening dict literal: the value [Appearance_to_dict] nests. *)
Lemma Episode_to_dict_default (self : Episode.t) (d : DB) :
  Episode_to_dict self false d = Return (Episode_result self).
Proof. reflexivity. Qed.

Lemma Guest_to_dict_default (self : Guest.t) (d : DB) :
  Guest_to_dict self false d = Return (Guest_result self).
Proof. reflexivity. Qed.

Lemma get_episodes_Return (st : State) :
  get_episodes st
    = (Return (Response (Json (PList (PDict <$>
         (Episode_result <$> Episode_query_order_by_number_all (db st))))) 200), st).
Proof.
  unfold get_episodes. unmonad.
  by rewrite (mapM_fmap_Return _ Episode_result).
Qed.

Lemma get_guests_Return (st : State) :
  get_guests st
    = (Return (Response (Json (PList (PDict <$>
         (Guest_result <$> Guest_query_order_by_name_all (db st))))) 200), st).
Proof.
  unfold get_guests. unmonad.
  by rewrite (mapM_fmap_Return _ Guest_result).
Qed.




(** ** GET /episodes/<id> *)

Lemma Episode_appearances_all_spec (self : Episode.t) (d : DB) (a : Appearance.t) :
  a ∈ Episode_appearances_all self d ↔
  appearances d !! Appearance.id a = Some (Appearance.fields a)
  ∧ Appearance.episode_id (Appearance.fields a) = Episode.id self.
Proof.
  unfold Episode_appearances_all. rewrite list_elem_of_fmap. split.
  - intros ([k r] & -> & Hin). apply elem_of_map_to_list in Hin.
    by apply map_lookup_filter_Some in Hin.
  - intros [Hk He]. destruct a as [k r]. exists (k, r). split; [done|].
    apply elem_of_map_to_list. by apply map_lookup_filter_Some.
Qed.

Lemma Episode_appearances_all_length (self : Episode.t) (d : DB) :
  length (Episode_appearances_all self d) = appearance_count (Episode.id self) d.
Proof.
  unfold Episode_appearances_all, appearance_count.
  by rewrite length_fmap, length_map_to_list.
Qed.

Lemma Appearance_to_dict_guest_only (d : DB) (a : Appearance.t) (g : Guest.row) :
  guests d !! Appearance.guest_id (Appearance.fields a) = Some g →
  ∃ item, Appearance_to_dict a true false d = Return item ∧ nested_in_episode d a item.
Proof.
  intros Hg. unfold Appearance_to_dict, Appearance_guest. rewrite Hg. unmonad.
  eexists. split; [done|]. repeat split; [done..|]. by exists g.
Qed.

Lemma get_episode_state `{Engine} (episode_id : Z) (st : State) :
  (get_episode episode_id st).2 = st.
Proof.
  unfold get_episode, Episode_query_get. unmonad.
  rewrite ident_key_int. simpl.
  destruct (episodes (db st) !! episode_id); simpl; [|done].
  by repeat case_match.
Qed.

(** C10. The three read handlers leave the state as they found it:
    after GET /episodes, GET /episodes/<id> for any id, and GET /guests,
    every table and the session are what they were before. *)
Theorem C10_reads_leave_store_unchanged `{Engine} (st : State) :
  (get_episodes st).2 = st
  ∧ (∀ episode_id, (get_episode episode_id st).2 = st)
  ∧ (get_guests st).2 = st.
Proof.
  split; [by rewrite get_episodes_Return|].
  split; [|by rewrite get_guests_Return].
  intros episode_id. apply get_episode_state.
Qed.

(** ** POST /appearances *)

Lemma next_rowid_fresh {A} (tbl : gmap Z A) : tbl !! next_rowid tbl = None.
Proof.
  destruct (tbl !! next_rowid tbl) as [a|] eqn:Hk; [exfalso|done].
  apply elem_of_map_to_list in Hk.
  apply (list_elem_of_fmap_2 fst) in Hk. simpl in Hk.
  unfold next_rowid in Hk. destruct ((map_to_list tbl).*1) as [|k ks]; [by inversion Hk|].
  assert (Hmax : ∀ x, x ∈ k :: ks → x ≤ foldr Z.max k ks).
  { clear. intros x. induction ks as [|y ks IH]; simpl.
    - intros ->%list_elem_of_singleton. lia.
    - rewrite elem_of_cons in IH. rewrite !elem_of_cons.
      intros [->|[->|Hx]]; [|lia|].
      + specialize (IH (or_introl eq_refl)). lia.
      + specialize (IH (or_intror Hx)). lia. }
  specialize (Hmax _ Hk). lia.
Qed.

Section create.
Context `{Engine}.

(** The handler runs its three checks and then either answers 400 or
    goes on to persist. *)
Lemma create_appearance_phases (data : dict) (st : State) :
  create_appearance (PDict data) st =
    let rating := default PNone (data !! "rating") in
    let episode_id := default PNone (data !! "episode_id") in
    let guest_id := default PNone (data !! "guest_id") in
    match rating_errors rating [] with
    | Raise e => (Raise e, st)
    | Return errors =>
        match episode_errors episode_id errors (db st) with
        | Raise e => (Raise e, st)
        | Return errors =>
            match guest_errors guest_id errors (db st) with
            | Raise e => (Raise e, st)
            | Return [] => persist rating guest_id episode_id st
            | Return errors =>
                (Return (Response
                   (Json (PDict {[ "errors" := PList (PStr <$> errors) ]})) 400), st)
            end
        end
    end.
Proof.
  unfold create_appearance, py_get. cbv zeta.
  generalize (default PNone (data !! "rating")),
    (default PNone (data !! "episode_id")), (default PNone (data !! "guest_id")).
  intros rating episode_id guest_id.
  unfold rating_errors, episode_errors, guest_errors, persist.
  unmonad.
  destruct (is_None rating);
    [|destruct (negb (isinstance_int rating));
      [|destruct (py_lt rating 1) as [[]|];
        [|destruct (py_gt rating 5) as [[]|]|]]];
    simpl;
    (destruct (is_None episode_id);
      [|destruct (Episode_query_get episode_id (db st)) as [[]|]]);
    simpl; try done;
    (destruct (is_None guest_id);
      [|destruct (Guest_query_get guest_id (db st)) as [[]|]]);
    simpl; done.
Qed.
End create.

Section create_blocks.
Context `{Engine}.

Lemma rating_errors_spec (rating : pyval) (errors : list string) :
  (∀ b, rating ≠ PBool b) →
  rating_errors rating errors = Return (errors ++ spec_rating_violations rating).
Proof.
  intros Hb. destruct rating as [|b|z| | | |]; try done; [by destruct (Hb b)|].
  unfold rating_errors, spec_rating_violations. unmonad.
  destruct (Z.ltb_spec z 1); simpl.
  - by rewrite bool_decide_false by lia.
  - destruct (Z.ltb_spec 5 z); simpl.
    + by rewrite bool_decide_false by lia.
    + rewrite bool_decide_true by lia. by rewrite app_nil_r.
Qed.

(** A rating passes the check only as an integer from 1 to 5; the
    integer is [bind_int] of it. *)
Lemma rating_errors_passed (rating : pyval) :
  rating_errors rating [] = Return [] →
  isinstance_int rating = true
  ∧ Appearance_validate_rating "rating" rating = Return rating
  ∧ ∃ r, bind_int rating = Return r ∧ 1 ≤ r ≤ 5.
Proof.
  unfold rating_errors, Appearance_validate_rating.
  destruct rating as [|[]|z| | | |]; unmonad; try done.
  - intros _. repeat split. exists 1. by rewrite (bind_int_bool true).
  - destruct (Z.ltb_spec z 1); simpl; [done|].
    destruct (Z.ltb_spec 5 z); simpl; [done|].
    intros _. repeat split. exists z. by rewrite bind_int_int.
Qed.

Lemma episode_errors_spec (episode_id : pyval) (errors : list string) (d : DB) :
  identifier episode_id →
  episode_errors episode_id errors d
    = Return (errors ++ spec_episode_violations d episode_id).
Proof.
  intros [->|[z ->]]; [done|].
  unfold episode_errors, Episode_query_get, spec_episode_violations. unmonad.
  rewrite ident_key_int. simpl.
  destruct (episodes d !! z); simpl; [|done]. by rewrite app_nil_r.
Qed.

Lemma guest_errors_spec (guest_id : pyval) (errors : list string) (d : DB) :
  identifier guest_id →
  guest_errors guest_id errors d
    = Return (errors ++ spec_guest_violations d guest_id).
Proof.
  intros [->|[z ->]]; [done|].
  unfold guest_errors, Guest_query_get, spec_guest_violations. unmonad.
  rewrite ident_key_int. simpl.
  destruct (guests d !! z); simpl; [|done]. by rewrite app_nil_r.
Qed.

Lemma episode_errors_nil (episode_id : pyval) (errors : list string) (d : DB) :
  episode_errors episode_id errors d = Return [] → errors = [].
Proof.
  unfold episode_errors. unmonad.
  destruct (is_None episode_id); [by destruct errors|].
  destruct (Episode_query_get episode_id d) as [[]|]; [congruence| |done].
  by destruct errors.
Qed.

Lemma guest_errors_nil (guest_id : pyval) (errors : list string) (d : DB) :
  guest_errors guest_id errors d = Return [] → errors = [].
Proof.
  unfold guest_errors. unmonad.
  destruct (is_None guest_id); [by destruct errors|].
  destruct (Guest_query_get guest_id d) as [[]|]; [congruence| |done].
  by destruct errors.
Qed.

(** With a rating that is not a boolean and identifiers that are
    integers or absent, the handler collects exactly the violations
    the specification lists, in its order. *)
Lemma create_appearance_typed (data : dict) (st : State) :
  let rating := default PNone (data !! "rating") in
  let episode_id := default PNone (data !! "episode_id") in
  let guest_id := default PNone (data !! "guest_id") in
  (∀ b, rating ≠ PBool b) → identifier episode_id → identifier guest_id →
  create_appearance (PDict data) st =
    match spec_violations (db st) rating episode_id guest_id with
    | [] => persist rating guest_id episode_id st
    | errors =>
        (Return (Response
           (Json (PDict {[ "errors" := PList (PStr <$> errors) ]})) 400), st)
    end.
Proof.
  intros rating episode_id guest_id Hr He Hg.
  rewrite create_appearance_phases. cbv zeta. fold rating episode_id guest_id.
  rewrite (rating_errors_spec _ _ Hr), (episode_errors_spec _ _ _ He),
    (guest_errors_spec _ _ _ Hg).
  rewrite app_nil_l, <-app_assoc. unfold spec_violations.
  by destruct (_ ++ _ ++ _).
Qed.

(** The creation itself, for a rating that passes the validator and
    is bound as [r], and identifiers of rows that exist, in a session
    with nothing pending. *)
Lemma persist_success (st : State) (rating : pyval) (r g e : Z)
    (gr : Guest.row) (er : Episode.row) :
  pending st = [] →
  Appearance_validate_rating "rating" rating = Return rating →
  bind_int rating = Return r →
  guests (db st) !! g = Some gr → episodes (db st) !! e = Some er →
  let k := next_rowid (appearances (db st)) in
  persist rating (PInt g) (PInt e) st
    = (Return (Response (Json (PDict (created_dict k r g e gr er))) 201),
       with_appearance st k (Appearance.Row r g e)).
Proof.
  intros Hp Hv Hr Hg He k. destruct st as [d p]. simpl in *. subst p.
  unfold persist, Appearance_init, session_add,
    session_commit, refreshed, with_appearance.
  unmonad. rewrite Hv. simpl.
  unfold insert_appearance. unmonad. rewrite Hr, !bind_int_int. simpl. fold k.
  rewrite lookup_insert_eq. simpl.
  unfold Appearance_to_dict, Appearance_guest, Appearance_episode. simpl.
  by rewrite Hg, He.
Qed.

Lemma validate_rating_in_range (r : Z) :
  1 ≤ r ≤ 5 → Appearance_validate_rating "rating" (PInt r) = Return (PInt r).
Proof.
  intros Hr. unfold Appearance_validate_rating. unmonad.
  destruct (Z.ltb_spec r 1); [lia|]. by destruct (Z.ltb_spec 5 r); [lia|].
Qed.

Lemma validate_rating_out_of_range (r : Z) :
  r < 1 ∨ 5 < r →
  Appearance_validate_rating "rating" (PInt r)
    = Raise (ValueError "Rating must be between 1 and 5 (inclusive)").
Proof.
  intros Hr. unfold Appearance_validate_rating. unmonad.
  destruct (Z.ltb_spec r 1); [done|]. by destruct (Z.ltb_spec 5 r); [|lia].
Qed.

(** Whatever it is given after the checks, the creation changes the
    tables by at most one row, whose rating is the one that passed. *)
Lemma persist_db (st : State) (rating guest_id episode_id : pyval) (r : Z) :
  pending st = [] →
  Appearance_validate_rating "rating" rating = Return rating →
  bind_int rating = Return r →
  db (persist rating guest_id episode_id st).2 = db st
  ∨ ∃ g e, (persist rating guest_id episode_id st).2
           = with_appearance st (next_rowid (appearances (db st)))
               (Appearance.Row r g e).
Proof.
  intros Hp Hv Hr. destruct st as [d p]. simpl in *. subst p.
  unfold persist, Appearance_init, session_add, session_commit,
    insert_appearance, with_appearance.
  unmonad. rewrite Hv. simpl. unfold insert_appearance. unmonad.
  rewrite Hr. simpl.
  destruct (bind_int guest_id) as [g|]; simpl; [|by left].
  destruct (bind_int episode_id) as [e|]; simpl; [|by left].
  right. exists g, e.
  destruct (refreshed _ _ _); simpl; [|done].
  by destruct (Appearance_to_dict _ _ _ _).
Qed.

(** The effect of the handler on the tables, whatever the request:
    none, or one new row with a rating from 1 to 5. *)
Lemma create_appearance_db (data : pyval) (st : State) :
  pending st = [] →
  db (create_appearance data st).2 = db st
  ∨ ∃ r g e,
      1 ≤ r ≤ 5
      ∧ (create_appearance data st).2
          = with_appearance st (next_rowid (appearances (db st)))
              (Appearance.Row r g e).
Proof.
  intros Hp.
  destruct data as [| | | | | |data]; try by left.
  rewrite create_appearance_phases. cbv zeta.
  destruct (rating_errors _ []) as [errors1|] eqn:H1; [|by left].
  destruct (episode_errors _ errors1 _) as [errors2|] eqn:H2; [|by left].
  destruct (guest_errors _ errors2 _) as [[|]|] eqn:H3; [|by left..].
  apply guest_errors_nil in H3 as ->. apply episode_errors_nil in H2 as ->.
  apply rating_errors_passed in H1 as (_ & Hv & r & Hr & Hrange).
  destruct (persist_db st _ (default PNone (data !! "guest_id"))
              (default PNone (data !! "episode_id")) r Hp Hv Hr)
    as [Hsame|(g & e & Hnew)]; [by left|].
  right. by exists r, g, e.
Qed.
End create_blocks.

Lemma identifier64_identifier (v : pyval) : identifier64 v → identifier v.
Proof. intros [->|(z & -> & _)]; [by left|right; by exists z]. Qed.

(** Validation on the requests that are typed as the handler expects: the
    body is a JSON object, the rating is not a JSON boolean, episode_id
    and guest_id are absent or integers that the engine holds. In a
    session with nothing pending exactly one of two things happens. If
    any violation holds (rating missing, not an integer, outside 1..5;
    episode_id missing or naming no row; guest_id missing or naming no
    row), the answer is one 400 response whose [errors] list holds every
    applicable message, and the state is unchanged. Otherwise the answer
    is 201, it has no [errors] key, and one row is added under a key that
    was free. *)
Lemma validation_total_exclusive `{Engine} (data : dict) (st : State) :
  let rating := default PNone (data !! "rating") in
  let episode_id := default PNone (data !! "episode_id") in
  let guest_id := default PNone (data !! "guest_id") in
  (∀ b, rating ≠ PBool b) → identifier64 episode_id → identifier64 guest_id →
  pending st = [] →
  match spec_violations (db st) rating episode_id guest_id with
  | [] =>
      ∃ k row created,
        appearances (db st) !! k = None
        ∧ create_appearance (PDict data) st
            = (Return (Response (Json (PDict created)) 201), with_appearance st k row)
        ∧ created !! "errors" = None
  | errors =>
      create_appearance (PDict data) st
        = (Return (Response
             (Json (PDict {[ "errors" := PList (PStr <$> errors) ]})) 400), st)
  end.
Proof.
  intros rating episode_id guest_id Hb He%identifier64_identifier
    Hg%identifier64_identifier Hp.
  pose proof (create_appearance_typed data st Hb He Hg) as Hc. cbv zeta in Hc.
  fold rating episode_id guest_id in Hc.
  destruct (spec_violations _ _ _ _) as [|m errors] eqn:Hv; [|done].
  unfold spec_violations in Hv.
  apply app_eq_nil in Hv as [Hvr [Hve Hvg]%app_eq_nil].
  destruct He as [He|[e He]]; rewrite He in *; [done|].
  destruct Hg as [Hg|[g Hg]]; rewrite Hg in *; [done|].
  simpl in Hve, Hvg.
  destruct (episodes (db st) !! e) as [er|] eqn:Her; [|done].
  destruct (guests (db st) !! g) as [gr|] eqn:Hgr; [|done].
  destruct rating as [| |r| | | |]; try done. simpl in Hvr.
  case_bool_decide as Hr; [|done].
  rewrite (persist_success st (PInt r) r g e gr er Hp
             (validate_rating_in_range r Hr) (bind_int_int r) Hgr Her) in Hc.
  eexists _, _, _. split; [apply next_rowid_fresh|]. by split; [apply Hc|].
Qed.

(** C3. For every POST /appearances request that passes validation
    (the rating is an integer from 1 to 5, episode_id and guest_id name
    rows that exist), in a session with nothing pending, the handler adds
    exactly one appearance row, under a key that was free, and answers 201
    with its serialized form: the guest and the episode are nested, the
    nested guest's name and the nested episode's date are those of the
    rows, and neither nested object has an [appearances] key. *)
Theorem C3_create_success `{Engine} (data : dict) (st : State) (r g e : Z)
    (gr : Guest.row) (er : Episode.row) :
  data !! "rating" = Some (PInt r) → 1 ≤ r ≤ 5 →
  data !! "episode_id" = Some (PInt e) → episodes (db st) !! e = Some er →
  data !! "guest_id" = Some (PInt g) → guests (db st) !! g = Some gr →
  pending st = [] →
  ∃ (k : Z) (created guest episode : dict),
    appearances (db st) !! k = None
    ∧ create_appearance (PDict data) st
        = (Return (Response (Json (PDict created)) 201),
           with_appearance st k (Appearance.Row r g e))
    ∧ size (appearances (db (with_appearance st k (Appearance.Row r g e))))
        = S (size (appearances (db st)))
    ∧ created !! "id" = Some (PInt k)
    ∧ created !! "rating" = Some (PInt r)
    ∧ created !! "guest" = Some (PDict guest)
    ∧ created !! "episode" = Some (PDict episode)
    ∧ guest = Guest_result (Guest.Obj g gr)
    ∧ episode = Episode_result (Episode.Obj e er)
    ∧ guest !! "name" = Some (PStr (Guest.name gr))
    ∧ episode !! "date" = Some (PStr (Episode.date er))
    ∧ guest !! "appearances" = None
    ∧ episode !! "appearances" = None.
Proof.
  intros Hdr Hr Hde Her Hdg Hgr Hp.
  pose proof (create_appearance_phases data st) as Hc. cbv zeta in Hc.
  rewrite Hdr, Hde, Hdg in Hc. simpl in Hc.
  rewrite (rating_errors_spec (PInt r) []) in Hc by done.
  rewrite (episode_errors_spec (PInt e)), (guest_errors_spec (PInt g)) in Hc
    by (right; eauto).
  simpl in Hc. rewrite bool_decide_true, Her, Hgr in Hc by done. simpl in Hc.
  rewrite (persist_success st (PInt r) r g e gr er Hp
             (validate_rating_in_range r Hr) (bind_int_int r) Hgr Her) in Hc.
  exists (next_rowid (appearances (db st))). eexists _, _, _.
  split; [apply next_rowid_fresh|]. split; [apply Hc|].
  split; [apply map_size_insert_None, next_rowid_fresh|].
  by repeat split.
Qed.

(** C7 (what the code does). A request whose rating is the JSON boolean
    [true] is not answered with 400: [isinstance(True, int)] holds and
    [True] lies between 1 and 5, so against the seeded store the request
    is answered with 201 and a row with rating 1 is written. *)
Theorem C7_boolean_rating_persisted `{Engine} :
  create_appearance
    (post [("rating", PBool true); ("episode_id", PInt 2); ("guest_id", PInt 3)])
    seeded
  = (Return (Response (Json (PDict
       (created_dict 27 1 3 2 (Guest.Row "Tracey Ullman" "television actress")
          (Episode.Row "1/12/99" 2)))) 201),
     with_appearance seeded 27 (Appearance.Row 1 3 2)).
Proof.
  unfold post. rewrite create_appearance_phases. cbv zeta.
  replace (default PNone (_ !! "rating")) with (PBool true) by done.
  replace (default PNone (_ !! "episode_id")) with (PInt 2) by done.
  replace (default PNone (_ !! "guest_id")) with (PInt 3) by done.
  change (rating_errors (PBool true) []) with (@Return (list string) []).
  cbv beta iota.
  rewrite (episode_errors_spec (PInt 2)) by (right; eauto).
  change (spec_episode_violations (db seeded) (PInt 2)) with (@nil string).
  cbv beta iota. simpl app.
  rewrite (guest_errors_spec (PInt 3)) by (right; eauto).
  change (spec_guest_violations (db seeded) (PInt 3)) with (@nil string).
  cbv beta iota. simpl app.
  by rewrite (persist_success seeded (PBool true) 1 3 2
                (Guest.Row "Tracey Ullman" "television actress")
                (Episode.Row "1/12/99" 2) eq_refl eq_refl (bind_int_bool true)).
Qed.

(** For any other value that is present and is not an integer (a float,
    a string, an array, an object) the handler does record the type
    error and answers 400. *)
Lemma non_integer_rating_rejected `{Engine} (data : dict) (st : State) (v : pyval) :
  data !! "rating" = Some v → is_None v = false → isinstance_int v = false →
  ∃ errors,
    "Rating must be an integer" ∈ errors
    ∧ ((create_appearance (PDict data) st).1
         = Return (Response (Json (PDict {[ "errors" := PList (PStr <$> errors) ]})) 400)
       ∨ ∃ e, (create_appearance (PDict data) st).1 = Raise e)
    ∧ (create_appearance (PDict data) st).2 = st.
Proof.
  intros Hv Hn Hi. rewrite create_appearance_phases. cbv zeta. rewrite Hv. simpl.
  unfold rating_errors. rewrite Hn, Hi. simpl.
  unfold episode_errors, guest_errors. unmonad.
  exists (["Rating must be an integer"]
            ++ (if is_None (default PNone (data !! "episode_id"))
                then ["Episode ID is required"]
                else match Episode_query_get (default PNone (data !! "episode_id")) (db st) with
                     | Return None => ["Episode not found"] | _ => [] end)
            ++ (if is_None (default PNone (data !! "guest_id"))
                then ["Guest ID is required"]
                else match Guest_query_get (default PNone (data !! "guest_id")) (db st) with
                     | Return None => ["Guest not found"] | _ => [] end)).
  split; [set_solver|].
  destruct (is_None (default PNone (data !! "episode_id")));
    [|destruct (Episode_query_get _ _) as [[]|]]; simpl;
    (destruct (is_None (default PNone (data !! "guest_id")));
      [|destruct (Guest_query_get _ _) as [[]|]]); simpl; eauto.
Qed.

(** ** Dispatch and the error handlers *)

Section dispatch.
Context `{Engine}.

(** A request that matched no rule has no blueprint, and the
    application itself has no handler: the framework's page is sent. *)
Lemma handle_error_application (code : Z) (st : State) :
  handle_error None code st = (Return (Response ErrorPage code), st).
Proof. done. Qed.

Lemma handle_error_api_500 (st : State) :
  handle_error (Some "api") 500 st
    = (Return (Response
         (Json (PDict {[ "error" := PStr "Internal server error" ]})) 500),
       Store (db st) []).
Proof. done. Qed.

Lemma handle_error_api_404 (st : State) :
  handle_error (Some "api") 404 st
    = (Return (Response
         (Json (PDict {[ "error" := PStr "Resource not found" ]})) 404), st).
Proof. done. Qed.

Lemma unmatched_route (req : request) (st : State) :
  url_map (path req) = None →
  full_dispatch_request req st = (Response ErrorPage 404, st).
Proof. intros Hm. unfold full_dispatch_request. by rewrite Hm. Qed.

(** A fault in a view of the blueprint is answered by [internal_error]:
    500, the JSON message, and the session rolled back. *)
Lemma fault_in_api_view (req : request) (e : endpoint) (st st' : State) (x : exn) :
  url_map (path req) = Some e → blueprint_of e = Some "api" →
  allowed e (method req) = true → method req ≠ OPTIONS →
  view e req st = (Raise x, st') →
  full_dispatch_request req st
    = (Response (Json (PDict {[ "error" := PStr "Internal server error" ]})) 500,
       Store (db st') []).
Proof.
  intros Hm Hb Ha Ho Hv. unfold full_dispatch_request.
  rewrite Hm, Ha. simpl. rewrite bool_decide_false by done.
  by rewrite Hv, Hb, handle_error_api_500.
Qed.

Lemma with_appearance_ratings (st : State) (k r g e : Z) :
  ratings_in_range (db st) → 1 ≤ r ≤ 5 →
  ratings_in_range (db (with_appearance st k (Appearance.Row r g e))).
Proof. intros Hst Hr. by apply map_Forall_insert_2. Qed.

(** One request changes the tables by at most one appearance row, and
    that row has a rating from 1 to 5. *)
Lemma full_dispatch_request_db (req : request) (st : State) :
  pending st = [] →
  db (full_dispatch_request req st).2 = db st
  ∨ ∃ r g e,
      1 ≤ r ≤ 5
      ∧ db (full_dispatch_request req st).2
          = db (with_appearance st (next_rowid (appearances (db st)))
                  (Appearance.Row r g e)).
Proof.
  intros Hp. unfold full_dispatch_request.
  destruct (url_map (path req)) as [e|]; [|by left].
  destruct (allowed e (method req)); simpl; [|by left].
  case_bool_decide; [by left|].
  assert (Hread : ∀ v : action response, (v st).2 = st →
    db (match v st with
        | (Return r, st') =>
            (if bool_decide (method req = HEAD)
             then Response NoContent (status r) else r, st')
        | (Raise _, st') =>
            match handle_error (blueprint_of e) 500 st' with
            | (Return r, st'') => (r, st'')
            | (Raise _, st'') => (Response ErrorPage 500, st'')
            end
        end).2 = db st).
  { intros v Hv. destruct (v st) as [[r|x] st']; simpl in *; subst st'; [done|].
    by destruct e. }
  destruct e as [| |episode_id| |]; simpl view.
  - left. by apply Hread.
  - left. apply Hread. by rewrite get_episodes_Return.
  - left. apply Hread. apply get_episode_state.
  - left. apply Hread. by rewrite get_guests_Return.
  - change (blueprint_of api_create_appearance) with (Some "api").
    destruct (create_appearance_db (get_json req) st Hp)
      as [Hsame|(r & g & e & Hr & Hnew)];
      destruct (create_appearance _ st) as [[r'|x] st'];
      rewrite ?handle_error_api_500; cbn [snd fst db] in *.
    + by left.
    + by left.
    + right. exists r, g, e. by rewrite Hnew.
    + right. exists r, g, e. by rewrite Hnew.
Qed.
End dispatch.

Lemma wsgi_app_invariant `{Engine} (req : request) (st : State) :
  ratings_in_range (db st) → pending st = [] →
  ratings_in_range (db (wsgi_app req st).2) ∧ pending (wsgi_app req st).2 = [].
Proof.
  intros Hst Hp. unfold wsgi_app.
  destruct (full_dispatch_request_db req st Hp) as [Hsame|(r & g & e & Hr & Hnew)];
    destruct (full_dispatch_request req st) as [resp st']; simpl in *.
  - by rewrite Hsame.
  - rewrite Hnew. split; [|done]. by apply map_Forall_insert_2.
Qed.

Lemma reachable_ratings_in_range `{Engine} (st : State) :
  reachable st → ratings_in_range (db st) ∧ pending st = [].
Proof.
  induction 1 as [|req st _ [IHr IHp]].
  - split; [|done]. apply (bool_decide_unpack _). by vm_compute.
  - by apply wsgi_app_invariant.
Qed.

(** C8 (what the code does). The handler [not_found] is registered on
    the blueprint, and a request that matches no rule belongs to no
    blueprint: such a request is answered with status 404 and the
    framework's own error page, not with the JSON body of [not_found]. *)
Theorem C8_unmatched_route_gets_framework_page `{Engine} (st : State) :
  wsgi_app (Request GET "/nope" PNone) st
    = (Response ErrorPage 404, Store (db st) []).
Proof. done. Qed.

(** C9. When the parsed body is [None], the first field access of
    [create_appearance] raises, before any check has run and with the
    state untouched; the request is answered as a fault, with status 500,
    not with a 400 error list. *)
Theorem C9_null_body_faults `{Engine} (st : State) :
  create_appearance PNone st
    = (Raise (AttributeError "'NoneType' object has no attribute 'get'"), st)
  ∧ wsgi_app (Request POST "/appearances" PNone) st
      = (Response (Json (PDict {[ "error" := PStr "Internal server error" ]})) 500,
         Store (db st) []).
Proof. done. Qed.

(** C1 (what the code does). A body that carries none of the three
    fields has three violations. For the empty object the handler
    collects them and answers 400 with the three messages, the state
    unchanged. For the body [null], which carries none of them either,
    [data.get('rating')] raises before any check has run: no error list
    is produced, and the request is answered 500. *)
Theorem C1_null_body_escapes_validation `{Engine} (st : State) :
  create_appearance (PDict ∅) st
    = (Return (Response
         (Json (PDict {[ "errors" := PList [ PStr "Rating is required";
                                             PStr "Episode ID is required";
                                             PStr "Guest ID is required" ] ]})) 400),
       st)
  ∧ create_appearance PNone st
      = (Raise (AttributeError "'NoneType' object has no attribute 'get'"), st)
  ∧ wsgi_app (Request POST "/appearances" (PDict ∅)) st
      = (Response
           (Json (PDict {[ "errors" := PList [ PStr "Rating is required";
                                               PStr "Episode ID is required";
                                               PStr "Guest ID is required" ] ]})) 400,
         Store (db st) [])
  ∧ wsgi_app (Request POST "/appearances" PNone) st
      = (Response (Json (PDict {[ "error" := PStr "Internal server error" ]})) 500,
         Store (db st) []).
Proof. done. Qed.

(** C2. The bound on ratings. Starting from a store in which every
    appearance has a rating from 1 to 5, every request leaves a store in
    which every appearance has one. Assigning a rating below 1 or above 5
    fails in the constructor, with the range error, before anything is
    added to the session. A POST /appearances with such a rating (0 and 6
    among them) writes no row, whatever the identifiers are and whatever
    the driver does with them: the state is left as it was, and the
    answer is 400 with the range error in its list, unless one of the
    two lookups raised, and then what is raised is what the lookup
    raised. *)
Theorem C2_rating_bound `{Engine} (req : request) (st : State) (data : dict)
    (z : Z) (guest_id episode_id : pyval) :
  ratings_in_range (db st) → pending st = [] →
  z < 1 ∨ 5 < z →
  data !! "rating" = Some (PInt z) →
  (ratings_in_range (db (wsgi_app req st).2) ∧ pending (wsgi_app req st).2 = [])
  ∧ Appearance_init (PInt z) guest_id episode_id
      = Raise (ValueError "Rating must be between 1 and 5 (inclusive)")
  ∧ (create_appearance (PDict data) st).2 = st
  ∧ ∃ errors,
      "Rating must be between 1 and 5 (inclusive)" ∈ errors
      ∧ ((create_appearance (PDict data) st).1
           = Return (Response
               (Json (PDict {[ "errors" := PList (PStr <$> errors) ]})) 400)
         ∨ ∃ x,
             (create_appearance (PDict data) st).1 = Raise x
             ∧ (Episode_query_get (default PNone (data !! "episode_id")) (db st)
                  = Raise x
                ∨ Guest_query_get (default PNone (data !! "guest_id")) (db st)
                  = Raise x)).
Proof.
  intros Hst Hp Hz Hr. split; [|split].
  - by apply wsgi_app_invariant.
  - unfold Appearance_init. unmonad. by rewrite validate_rating_out_of_range.
  - rewrite create_appearance_phases. cbv zeta. rewrite Hr.
    change (default PNone (Some (PInt z))) with (PInt z).
    rewrite (rating_errors_spec (PInt z) []) by done.
    assert (Hv : spec_rating_violations (PInt z)
                 = ["Rating must be between 1 and 5 (inclusive)"]).
    { unfold spec_rating_violations. rewrite bool_decide_false; [done|lia]. }
    rewrite Hv, app_nil_l.
    generalize (default PNone (data !! "episode_id")),
      (default PNone (data !! "guest_id")).
    intros eid gid. unfold episode_errors, guest_errors. unmonad.
    split.
    + destruct (is_None eid);
        [|destruct (Episode_query_get eid (db st)) as [[er|]|x]]; simpl;
        (destruct (is_None gid);
          [|destruct (Guest_query_get gid (db st)) as [[gr|]|y]]); done.
    + exists (["Rating must be between 1 and 5 (inclusive)"]
                ++ (if is_None eid then ["Episode ID is required"]
                    else match Episode_query_get eid (db st) with
                         | Return None => ["Episode not found"] | _ => [] end)
                ++ (if is_None gid then ["Guest ID is required"]
                    else match Guest_query_get gid (db st) with
                         | Return None => ["Guest not found"] | _ => [] end)).
      split; [apply elem_of_app; left; by apply list_elem_of_singleton|].
      destruct (is_None eid);
        [|destruct (Episode_query_get eid (db st)) as [[er|]|x]]; simpl;
        (destruct (is_None gid);
          [|destruct (Guest_query_get gid (db st)) as [[gr|]|y]]); simpl;
        try (by left);
        right; eexists; (split; [done|]); by (left + right).
Qed.

(** ** The seeded store, and the theorems at concrete requests *)

Lemma seeded_ratings_in_range : ratings_in_range (db seeded).
Proof. apply (bool_decide_unpack _). by vm_compute. Defined.

Lemma seeded_refs_ok : refs_ok (db seeded).
Proof. apply (bool_decide_unpack _). by vm_compute. Defined.

(** A created appearance refers to rows that exist. *)
Lemma with_appearance_refs_ok (st : State) (k r g e : Z) :
  refs_ok (db st) →
  is_Some (guests (db st) !! g) → is_Some (episodes (db st) !! e) →
  refs_ok (db (with_appearance st k (Appearance.Row r g e))).
Proof. intros Hst Hg He. by apply map_Forall_insert_2. Qed.

(** Validation at the request
    [{"rating": 5, "episode_id": 9999, "guest_id": 3}] against the seeded
    store. *)
Lemma validation_unknown_episode :
  @create_appearance strict_engine
    (post [("rating", PInt 5); ("episode_id", PInt 9999); ("guest_id", PInt 3)])
    seeded
  = (Return (Response
       (Json (PDict {[ "errors" := PList [PStr "Episode not found"] ]})) 400),
     seeded).
Proof.
  assert (Hb : ∀ b, PInt 5 ≠ PBool b) by (intros b Hb; discriminate Hb).
  assert (He : identifier64 (PInt 9999))
    by (right; exists 9999; split; [reflexivity|unfold int64; lia]).
  assert (Hg : identifier64 (PInt 3))
    by (right; exists 3; split; [reflexivity|unfold int64; lia]).
  exact (@validation_total_exclusive strict_engine
           (list_to_map
              [("rating", PInt 5); ("episode_id", PInt 9999); ("guest_id", PInt 3)])
           seeded Hb He Hg eq_refl).
Defined.

(** C2 at the request [{"rating": 0, "episode_id": 2, "guest_id": 3}]
    against the seeded store. *)
Lemma C2_witness_rating_zero :
  let data := list_to_map
                [("rating", PInt 0); ("episode_id", PInt 2); ("guest_id", PInt 3)]
              : dict in
  ratings_in_range
    (db (@wsgi_app strict_engine (Request POST "/appearances" (PDict data)) seeded).2)
  ∧ Appearance_init (PInt 0) (PInt 3) (PInt 2)
      = Raise (ValueError "Rating must be between 1 and 5 (inclusive)")
  ∧ (@create_appearance strict_engine (PDict data) seeded).2 = seeded
  ∧ ∃ errors,
      "Rating must be between 1 and 5 (inclusive)" ∈ errors
      ∧ ((@create_appearance strict_engine (PDict data) seeded).1
           = Return (Response
               (Json (PDict {[ "errors" := PList (PStr <$> errors) ]})) 400)
         ∨ ∃ x,
             (@create_appearance strict_engine (PDict data) seeded).1 = Raise x
             ∧ (@Episode_query_get strict_engine
                  (default PNone (data !! "episode_id")) (db seeded) = Raise x
                ∨ @Guest_query_get strict_engine
                    (default PNone (data !! "guest_id")) (db seeded) = Raise x)).
Proof.
  intros data.
  assert (Hz : 0 < 1 ∨ 5 < 0) by (left; lia).
  assert (Hl : data !! "rating" = Some (PInt 0)) by reflexivity.
  destruct (@C2_rating_bound strict_engine
              (Request POST "/appearances" (PDict data)) seeded data
              0 (PInt 3) (PInt 2)
              seeded_ratings_in_range eq_refl Hz Hl)
    as [[Hinv _] [Hinit [Hstate Hpost]]].
  exact (conj Hinv (conj Hinit (conj Hstate Hpost))).
Defined.

(** C3 at the request [{"rating": 5, "episode_id": 2, "guest_id": 3}]
    against the seeded store, the example of the specification. *)
Lemma C3_witness_seeded :
  ∃ (k : Z) (created guest episode : dict),
    appearances (db seeded) !! k = None
    ∧ @create_appearance strict_engine
        (post [("rating", PInt 5); ("episode_id", PInt 2); ("guest_id", PInt 3)])
        seeded
      = (Return (Response (Json (PDict created)) 201),
         with_appearance seeded k (Appearance.Row 5 3 2))
    ∧ created !! "guest" = Some (PDict guest)
    ∧ created !! "episode" = Some (PDict episode)
    ∧ guest !! "name" = Some (PStr "Tracey Ullman")
    ∧ episode !! "date" = Some (PStr "1/12/99")
    ∧ guest !! "appearances" = None
    ∧ episode !! "appearances" = None.
Proof.
  assert (Hr : 1 ≤ 5 ≤ 5) by lia.
  pose (data := list_to_map
          [("rating", PInt 5); ("episode_id", PInt 2); ("guest_id", PInt 3)] : dict).
  assert (Hlr : data !! "rating" = Some (PInt 5)) by reflexivity.
  assert (Hle : data !! "episode_id" = Some (PInt 2)) by reflexivity.
  assert (Hlg : data !! "guest_id" = Some (PInt 3)) by reflexivity.
  assert (Hse : episodes (db seeded) !! 2 = Some (Episode.Row "1/12/99" 2))
    by reflexivity.
  assert (Hsg : guests (db seeded) !! 3
                = Some (Guest.Row "Tracey Ullman" "television actress"))
    by reflexivity.
  destruct (@C3_create_success strict_engine
              data seeded 5 3 2
              (Guest.Row "Tracey Ullman" "television actress")
              (Episode.Row "1/12/99" 2)
              Hlr Hr Hle Hse Hlg Hsg eq_refl)
    as (k & created & guest & episode & Hfresh & Hc & _ & _ & _ & Hg & He & _ & _
        & Hn & Hd & Hga & Hea).
  exists k, created, guest, episode.
  exact (conj Hfresh (conj Hc (conj Hg (conj He (conj Hn (conj Hd (conj Hga Hea))))))).
Defined.

(** * Further properties *)

(** ** Keys of inserted rows *)

Lemma foldr_max_elem (k : Z) (ks : list Z) : foldr Z.max k ks ∈ k :: ks.
Proof.
  induction ks as [|y ks IH]; simpl; [by left|].
  destruct (Z.max_spec y (foldr Z.max k ks)) as [[_ ->]|[_ ->]].
  - apply elem_of_cons in IH as [->|IH]; [by left|]. by do 2 right.
  - right. by left.
Qed.

Lemma foldr_max_upper (k : Z) (ks : list Z) (x : Z) :
  x ∈ k :: ks → x ≤ foldr Z.max k ks.
Proof.
  induction ks as [|y ks IH]; simpl.
  - intros ->%list_elem_of_singleton. lia.
  - rewrite elem_of_cons in IH. rewrite !elem_of_cons.
    intros [->|[->|Hx]]; [|lia|].
    + specialize (IH (or_introl eq_refl)). lia.
    + specialize (IH (or_intror Hx)). lia.
Qed.

(** In a table whose keys are 1..n the next key is n+1. *)
Lemma next_rowid_range {A} (tbl : gmap Z A) (n : nat) :
  (∀ j, is_Some (tbl !! j) ↔ 1 ≤ j ≤ Z.of_nat n) → next_rowid tbl = Z.of_nat n + 1.
Proof.
  intros Hkeys. unfold next_rowid.
  assert (Hin : ∀ j, j ∈ (map_to_list tbl).*1 ↔ 1 ≤ j ≤ Z.of_nat n).
  { intros j. rewrite <-Hkeys. rewrite list_elem_of_fmap. split.
    - intros ([j' a] & -> & Hja). apply elem_of_map_to_list in Hja. by exists a.
    - intros [a Ha]. exists (j, a). split; [done|]. by apply elem_of_map_to_list. }
  destruct ((map_to_list tbl).*1) as [|k ks] eqn:Hl.
  - destruct n as [|n]; [done|].
    assert (Z.of_nat (S n) ∈ @nil Z) as Hn by (apply Hin; lia). by inversion Hn.
  - pose proof (foldr_max_elem k ks) as Hm. apply Hin in Hm.
    assert (Z.of_nat n ∈ k :: ks) as Hn by (apply Hin; lia).
    apply foldr_max_upper in Hn. lia.
Qed.

Lemma insert_all_snoc {A} (l : list A) (x : A) (tbl : gmap Z A) :
  insert_all (l ++ [x]) tbl
    = <[next_rowid (insert_all l tbl) := x]> (insert_all l tbl).
Proof. unfold insert_all. by rewrite foldl_app. Qed.

(** Rows committed to an empty table are numbered from 1 in the order in
    which they were added. *)
Lemma insert_all_lookup {A} (l : list A) (j : Z) :
  insert_all l (∅ : gmap Z A) !! j
    = if bool_decide (1 ≤ j) then l !! Z.to_nat (j - 1) else None.
Proof.
  revert j. induction l as [|x l IH] using rev_ind; intros j.
  - unfold insert_all. simpl. rewrite lookup_empty. by case_bool_decide.
  - rewrite insert_all_snoc.
    assert (Hnext : next_rowid (insert_all l (∅ : gmap Z A)) = Z.of_nat (length l) + 1).
    { apply next_rowid_range. intros i. rewrite IH. case_bool_decide.
      - rewrite lookup_lt_is_Some. lia.
      - split; [by intros [? ?]|lia]. }
    rewrite Hnext. destruct (decide (j = Z.of_nat (length l) + 1)) as [->|Hj].
    + rewrite lookup_insert_eq, bool_decide_true by lia.
      replace (Z.to_nat (Z.of_nat (length l) + 1 - 1)) with (length l + 0)%nat by lia.
      by rewrite lookup_app_r, Nat.add_0_r, Nat.sub_diag by lia.
    + rewrite lookup_insert_ne, IH by done. case_bool_decide; [|done].
      destruct (decide (Z.to_nat (j - 1) < length l)%nat).
      * by rewrite lookup_app_l.
      * rewrite !lookup_ge_None_2; [done| |lia].
        rewrite length_app. simpl. lia.
Qed.

Lemma insert_all_keys {A} (l : list A) (j : Z) :
  is_Some (insert_all l (∅ : gmap Z A) !! j) ↔ 1 ≤ j ≤ Z.of_nat (length l).
Proof.
  rewrite insert_all_lookup. case_bool_decide.
  - rewrite lookup_lt_is_Some. lia.
  - split; [by intros [? ?]|lia].
Qed.

(** The flush of instances built from integers: one row each, in order,
    whatever the driver. *)
Lemma flush_ints `{Engine} (rows : list (Z * Z * Z)) (d : DB) :
  ∃ keys,
    flush ((λ '(r, g, e), Appearance.New (PInt r) (PInt g) (PInt e)) <$> rows) d
      = Return (keys,
          Tables (episodes d) (guests d)
            (insert_all ((λ '(r, g, e), Appearance.Row r g e) <$> rows)
               (appearances d))).
Proof.
  revert d. induction rows as [|[[r g] e] rows IH]; intros d.
  - exists []. by destruct d.
  - cbn [fmap list_fmap flush]. unfold insert_appearance. unmonad.
    rewrite !bind_int_int. simpl.
    destruct (IH (Tables (episodes d) (guests d)
                    (<[next_rowid (appearances d) := Appearance.Row r g e]>
                       (appearances d)))) as [keys Hk].
    unmonad. rewrite Hk. by eexists.
Qed.

(** ** seed.py *)

Lemma sample_appearances_init :
  mapM (λ '(r, g, e), Appearance_init (PInt r) (PInt g) (PInt e)) sample_appearances
    = Return ((λ '(r, g, e), Appearance.New (PInt r) (PInt g) (PInt e))
                <$> sample_appearances).
Proof. reflexivity. Qed.

Lemma sample_tables :
  insert_all sample_episodes ∅ = episodes (db seeded)
  ∧ insert_all sample_guests ∅ = guests (db seeded)
  ∧ insert_all ((λ '(r, g, e), Appearance.Row r g e) <$> sample_appearances) ∅
      = appearances (db seeded).
Proof. repeat split; by vm_compute. Qed.

(** The store that [seed_database] leaves when the session held the
    guests [gs] at the second commit. *)
Lemma seed_database_tables `{Engine} (gs : list Guest.row) (d0 : DB) :
  match flush ((λ '(r, g, e), Appearance.New (PInt r) (PInt g) (PInt e))
                 <$> sample_appearances)
              (Tables (insert_all sample_episodes ∅) (insert_all gs ∅) ∅) with
  | Return (_, d') => (Return (), d')
  | Raise x => (Raise x, d0)
  end
  = (Return (),
     Tables (episodes (db seeded)) (insert_all gs ∅) (appearances (db seeded))).
Proof.
  destruct (flush_ints sample_appearances
              (Tables (insert_all sample_episodes ∅) (insert_all gs ∅) ∅))
    as [keys Hk].
  rewrite Hk. cbv beta iota. cbn [episodes guests appearances].
  destruct sample_tables as (He & _ & Ha). by rewrite He, Ha.
Qed.

(** X1. Without a CSV file, [seed_database] leaves the same store
    whatever store it started from: the ten episodes, the eight sample
    guests and the twenty-six appearances, numbered from 1. Seeding
    twice is seeding once, and rows written before are gone. *)
Theorem seed_database_resets `{Engine} (strip : string → string) (d : DB) :
  seed_database strip NoCsv d = (Return (), db seeded).
Proof.
  unfold seed_database. cbn [episodes guests appearances].
  rewrite sample_appearances_init.
  unfold create_sample_guests. rewrite app_nil_l.
  rewrite (seed_database_tables sample_guests).
  destruct sample_tables as (_ & Hg & _). by rewrite Hg.
Qed.

Lemma read_guests_all (strip : string → string) (rows : list dict)
    (gs : list Guest.row) (fails : bool) (session : list Guest.row) :
  Forall2 (λ row g, csv_guest strip row = Return g) rows gs →
  read_guests strip rows fails session = (session ++ gs, fails).
Proof.
  intros Hrows. revert session.
  induction Hrows as [|row g rows gs Hg _ IH]; intros session; simpl.
  - by rewrite app_nil_r.
  - by rewrite Hg, IH, <-app_assoc.
Qed.

Lemma read_guests_raises (strip : string → string) (good rest : list dict)
    (bad : dict) (gs : list Guest.row) (x : exn) (fails : bool)
    (session : list Guest.row) :
  Forall2 (λ row g, csv_guest strip row = Return g) good gs →
  csv_guest strip bad = Raise x →
  read_guests strip (good ++ bad :: rest) fails session = (session ++ gs, true).
Proof.
  intros Hgood Hbad. revert session.
  induction Hgood as [|row g rows gs Hg _ IH]; intros session; simpl.
  - by rewrite Hbad, app_nil_r.
  - by rewrite Hg, IH, <-app_assoc.
Qed.

Lemma seeded_appearance_refs :
  map_Forall (λ _ r, 1 ≤ Appearance.guest_id r ≤ 8
                     ∧ 1 ≤ Appearance.episode_id r ≤ 10
                     ∧ 1 ≤ Appearance.rating r ≤ 5)
    (appearances (db seeded)).
Proof. apply (bool_decide_unpack _). by vm_compute. Qed.

Lemma seed_tables_ok (gs : list Guest.row) :
  ratings_in_range
    (Tables (episodes (db seeded)) (insert_all gs ∅) (appearances (db seeded)))
  ∧ ((8 ≤ length gs)%nat →
     refs_ok
       (Tables (episodes (db seeded)) (insert_all gs ∅) (appearances (db seeded)))).
Proof.
  split.
  - eapply map_Forall_impl; [apply seeded_appearance_refs|]. by intros k r (_ & _ & Hr).
  - intros Hlen. eapply map_Forall_impl; [apply seeded_appearance_refs|].
    intros k r (Hg & He & _). cbn [episodes guests]. split.
    + apply insert_all_keys. lia.
    + destruct sample_tables as (Hse & _ & _). rewrite <-Hse.
      apply insert_all_keys. cbn [length sample_episodes]. lia.
Qed.


(** X15. With a CSV file of fewer than eight guests the seeded store
    is inconsistent: the fixed appearances still refer to the guests
    1..8, and the engine does not check the references, so some
    appearance has no guest. *)
Theorem seed_database_short_csv `{Engine} (strip : string → string)
    (rows : list dict) (gs : list Guest.row) (d : DB) :
  Forall2 (λ row g, csv_guest strip row = Return g) rows gs →
  (length gs < 8)%nat →
  ∃ d' k a,
    seed_database strip (Csv rows false) d = (Return (), d')
    ∧ appearances d' !! k = Some a
    ∧ guests d' !! Appearance.guest_id a = None
    ∧ ¬ refs_ok d'.
Proof.
  intros Hrows Hlen.
  assert (Hseed : seed_database strip (Csv rows false) d
            = (Return (), Tables (episodes (db seeded)) (insert_all gs ∅)
                            (appearances (db seeded)))).
  { unfold seed_database. cbn [episodes guests appearances].
    rewrite sample_appearances_init, (read_guests_all _ _ gs) by done.
    rewrite app_nil_l. apply seed_database_tables. }
  assert (Hk : appearances (db seeded) !! 11 = Some (Appearance.Row 5 8 4))
    by reflexivity.
  assert (Hg : insert_all gs (∅ : gmap Z Guest.row) !! 8 = None).
  { rewrite insert_all_lookup, bool_decide_true by lia.
    apply lookup_ge_None_2. lia. }
  eexists _, 11, (Appearance.Row 5 8 4). split; [exact Hseed|].
  split; [exact Hk|]. split; [exact Hg|].
  intros Hrefs. destruct (Hrefs 11 _ Hk) as [[g Hg'] _].
  cbn [guests Appearance.guest_id] in Hg'. by rewrite Hg in Hg'.
Qed.

(** X3. When reading the CSV file raises, the guests read so far stay
    in the session and the eight sample guests are added after them:
    with [n] guests read, sample guest number [i] gets the key [n + i],
    while the appearances still refer to the keys 1..8. The reading
    raises on the first row whose name or occupation is [None], whatever
    follows it, and it raises when the reader itself fails after rows
    that were all well formed. *)
Theorem seed_database_csv_failure `{Engine} (strip : string → string)
    (rows good : list dict) (gs : list Guest.row) (fails : bool) (d : DB) :
  Forall2 (λ row g, csv_guest strip row = Return g) good gs →
  (rows = good ∧ fails = true)
  ∨ (∃ bad rest x, rows = good ++ bad :: rest ∧ csv_guest strip bad = Raise x) →
  ∃ d',
    seed_database strip (Csv rows fails) d = (Return (), d')
    ∧ appearances d' = appearances (db seeded)
    ∧ (∀ i, (i < length gs)%nat → guests d' !! Z.of_nat (S i) = gs !! i)
    ∧ (∀ i, guests d' !! Z.of_nat (length gs + S i) = sample_guests !! i)
    ∧ refs_ok d'.
Proof.
  intros Hgood Hraised.
  assert (Hread : read_guests strip rows fails [] = (gs, true)).
  { destruct Hraised as [[-> ->]|(bad & rest & x & -> & Hbad)].
    - by rewrite (read_guests_all _ _ gs).
    - by rewrite (read_guests_raises _ _ _ _ gs x). }
  eexists. split.
  - unfold seed_database. cbn [episodes guests appearances].
    rewrite sample_appearances_init, Hread.
    apply seed_database_tables.
  - cbn [episodes guests appearances]. split; [done|]. split; [|split].
    + intros i Hi. rewrite insert_all_lookup, bool_decide_true by lia.
      replace (Z.to_nat (Z.of_nat (S i) - 1)) with i by lia.
      unfold create_sample_guests. by rewrite lookup_app_l.
    + intros i. rewrite insert_all_lookup, bool_decide_true by lia.
      replace (Z.to_nat (Z.of_nat (length gs + S i) - 1))
        with (length gs + i)%nat by lia.
      unfold create_sample_guests. by rewrite lookup_app_r, Nat.add_comm, Nat.add_sub by lia.
    + apply seed_tables_ok. unfold create_sample_guests.
      rewrite length_app. simpl. lia.
Qed.

(** ** models.py: serialization *)

Lemma mapM_Raise {A B} (f : A → result B) (l : list A) :
  Exists (λ x, ∃ e, f x = Raise e) l → ∃ e, mapM f l = Raise e.
Proof.
  induction l as [|a l IH]; intros Hl; [by inversion Hl|].
  cbn [mapM]. unmonad. destruct (f a) as [b|e] eqn:Ha; [|by eauto].
  apply Exists_cons in Hl as [[e He]|Hl]; [congruence|].
  destruct (IH Hl) as [e He]. unmonad. rewrite He. by eauto.
Qed.

(** X4. [Appearance.to_dict] returns whenever the relations it is asked
    to include exist: the result has the four columns, a [guest] key
    exactly when [include_guest] is set and an [episode] key exactly
    when [include_episode] is set, and a nested object never has an
    [appearances] key. With both flags off it cannot fail. *)
Theorem Appearance_to_dict_flags (self : Appearance.t)
    (include_guest include_episode : bool) (d : DB) :
  (include_guest = true →
   is_Some (guests d !! Appearance.guest_id (Appearance.fields self))) →
  (include_episode = true →
   is_Some (episodes d !! Appearance.episode_id (Appearance.fields self))) →
  ∃ item : dict,
    Appearance_to_dict self include_guest include_episode d = Return item
    ∧ dom item
        = {[ "id"; "rating"; "guest_id"; "episode_id" ]}
          ∪ (if include_guest then {[ "guest" ]} else ∅)
          ∪ (if include_episode then {[ "episode" ]} else ∅)
    ∧ ∀ key nested, item !! key = Some (PDict nested) →
                    nested !! "appearances" = None.
Proof.
  intros Hg He. unfold Appearance_to_dict, Appearance_guest, Appearance_episode.
  destruct include_guest, include_episode.
  - destruct (Hg eq_refl) as [g ->], (He eq_refl) as [e ->]. unmonad.
    eexists. split; [done|]. split.
    + rewrite !dom_insert_L, dom_singleton_L. set_solver.
    + intros key nested.
      rewrite !lookup_insert_Some, lookup_singleton_Some.
      intros Hk; by repeat (destruct_or! || destruct_and!); simplify_eq.
  - destruct (Hg eq_refl) as [g ->]. unmonad.
    eexists. split; [done|]. split.
    + rewrite !dom_insert_L, dom_singleton_L. set_solver.
    + intros key nested.
      rewrite !lookup_insert_Some, lookup_singleton_Some.
      intros Hk; by repeat (destruct_or! || destruct_and!); simplify_eq.
  - destruct (He eq_refl) as [e ->]. unmonad.
    eexists. split; [done|]. split.
    + rewrite !dom_insert_L, dom_singleton_L. set_solver.
    + intros key nested.
      rewrite !lookup_insert_Some, lookup_singleton_Some.
      intros Hk; by repeat (destruct_or! || destruct_and!); simplify_eq.
  - unmonad. eexists. split; [done|]. split.
    + rewrite !dom_insert_L, dom_singleton_L. set_solver.
    + intros key nested.
      rewrite !lookup_insert_Some, lookup_singleton_Some.
      intros Hk; by repeat (destruct_or! || destruct_and!); simplify_eq.
Qed.

(** X4 at appearance 4 of the seeded store, with both relations. *)
Lemma Appearance_to_dict_flags_witness :
  ∃ item : dict,
    Appearance_to_dict (Appearance.Obj 4 (Appearance.Row 5 3 2)) true true (db seeded)
      = Return item
    ∧ dom item = {[ "id"; "rating"; "guest_id"; "episode_id" ]} ∪ {[ "guest" ]} ∪ {[ "episode" ]}.
Proof.
  destruct (Appearance_to_dict_flags (Appearance.Obj 4 (Appearance.Row 5 3 2))
              true true (db seeded))
    as (item & Hitem & Hdom & _).
  - intros _. by eexists.
  - intros _. by eexists.
  - by exists item.
Defined.

Lemma Guest_appearances_all_spec (self : Guest.t) (d : DB) (a : Appearance.t) :
  a ∈ Guest_appearances_all self d ↔
  appearances d !! Appearance.id a = Some (Appearance.fields a)
  ∧ Appearance.guest_id (Appearance.fields a) = Guest.id self.
Proof.
  unfold Guest_appearances_all. rewrite list_elem_of_fmap. split.
  - intros ([k r] & -> & Hin). apply elem_of_map_to_list in Hin.
    by apply map_lookup_filter_Some in Hin.
  - intros [Hk He]. destruct a as [k r]. exists (k, r). split; [done|].
    apply elem_of_map_to_list. by apply map_lookup_filter_Some.
Qed.

Lemma Appearance_to_dict_episode_only (d : DB) (a : Appearance.t) (e : Episode.row) :
  episodes d !! Appearance.episode_id (Appearance.fields a) = Some e →
  ∃ item, Appearance_to_dict a false true d = Return item ∧ nested_in_guest d a item.
Proof.
  intros He. unfold Appearance_to_dict, Appearance_episode. rewrite He. unmonad.
  eexists. split; [done|]. repeat split; [done..|]. by exists e.
Qed.

(** X5. [Guest.to_dict(include_appearances=True)], in a store where no
    appearance refers to a missing episode, returns the guest's [id],
    [name] and [occupation] and an [appearances] array with one entry
    for each appearance row of the guest; every entry nests its episode
    and has no [guest] key. *)
Theorem Guest_to_dict_nested (self : Guest.t) (d : DB) :
  refs_ok d →
  ∃ items : list dict,
    Guest_to_dict self true d
      = Return (<["appearances" := PList (PDict <$> items)]> (Guest_result self))
    ∧ length items = guest_appearance_count (Guest.id self) d
    ∧ Forall2 (nested_in_guest d) (Guest_appearances_all self d) items.
Proof.
  intros Hrefs.
  destruct (mapM_total (λ a, Appearance_to_dict a false true d)
              (nested_in_guest d) (Guest_appearances_all self d))
    as (items & Hitems & Hnested).
  { apply Forall_forall. intros a [Ha _]%Guest_appearances_all_spec.
    destruct (Hrefs _ _ Ha) as [_ [e He]].
    by apply (Appearance_to_dict_episode_only _ _ e). }
  exists items. split; [|split; [|done]].
  - unfold Guest_to_dict. unmonad. by rewrite Hitems.
  - rewrite <-(Forall2_length _ _ _ Hnested).
    unfold Guest_appearances_all, guest_appearance_count.
    by rewrite length_fmap, length_map_to_list.
Qed.

(** X5 at guest 3 of the seeded store, who has four appearances. *)
Lemma Guest_to_dict_nested_witness :
  ∃ items : list dict,
    Guest_to_dict (Guest.Obj 3 (Guest.Row "Tracey Ullman" "television actress"))
        true (db seeded)
      = Return (<["appearances" := PList (PDict <$> items)]>
                  (Guest_result
                     (Guest.Obj 3 (Guest.Row "Tracey Ullman" "television actress"))))
    ∧ length items = 4%nat.
Proof.
  destruct (Guest_to_dict_nested
              (Guest.Obj 3 (Guest.Row "Tracey Ullman" "television actress"))
              (db seeded) seeded_refs_ok)
    as (items & Hitems & Hlen & _).
  exists items. split; [exact Hitems|]. rewrite Hlen. by vm_compute.
Defined.

Lemma mapM_Raise_same {A B} (f : A → result B) (l : list A) (e : exn) :
  Forall (λ x, (∃ y, f x = Return y) ∨ f x = Raise e) l →
  Exists (λ x, f x = Raise e) l →
  mapM f l = Raise e.
Proof.
  induction 1 as [|a l Ha _ IH]; intros Hl; [by inversion Hl|].
  cbn [mapM]. unmonad. destruct Ha as [[y Hy]|Ha]; [|by rewrite Ha].
  rewrite Hy. apply Exists_cons in Hl as [Hl|Hl]; [congruence|].
  unmonad. by rewrite (IH Hl).
Qed.

(** X6. When an appearance of an episode refers to a guest that does
    not exist, [get_episode] for that episode raises: [self.guest] is
    [None] and has no [to_dict]. The state is left as it was, and the
    request is answered by [internal_error] with status 500. *)
Theorem get_episode_dangling_guest `{Engine} (req : request) (episode_id k : Z)
    (r : Episode.row) (a : Appearance.row) (st : State) :
  episodes (db st) !! episode_id = Some r →
  appearances (db st) !! k = Some a →
  Appearance.episode_id a = episode_id →
  guests (db st) !! Appearance.guest_id a = None →
  url_map (path req) = Some (api_get_episode episode_id) → method req = GET →
  get_episode episode_id st
    = (Raise (AttributeError "'NoneType' object has no attribute 'to_dict'"), st)
  ∧ wsgi_app req st
      = (Response (Json (PDict {[ "error" := PStr "Internal server error" ]})) 500,
         Store (db st) []).
Proof.
  intros Hr Hk Ha Hg Hurl Hm.
  assert (Hget : get_episode episode_id st
    = (Raise (AttributeError "'NoneType' object has no attribute 'to_dict'"), st)).
  { assert (Hraise : mapM (λ a, Appearance_to_dict a true false (db st))
                       (Episode_appearances_all (Episode.Obj episode_id r) (db st))
                     = Raise (AttributeError "'NoneType' object has no attribute 'to_dict'")).
    { apply mapM_Raise_same.
      - apply Forall_forall. intros a' _.
        unfold Appearance_to_dict, Appearance_guest.
        destruct (guests (db st) !! Appearance.guest_id (Appearance.fields a'));
          unmonad; eauto.
      - apply Exists_exists. exists (Appearance.Obj k a). split.
        + by apply Episode_appearances_all_spec.
        + unfold Appearance_to_dict, Appearance_guest. simpl. by rewrite Hg. }
    unfold get_episode, Episode_query_get, Episode_to_dict. unmonad.
    rewrite ident_key_int. simpl. rewrite Hr. simpl. by rewrite Hraise. }
  split; [done|]. unfold wsgi_app.
  rewrite (fault_in_api_view req (api_get_episode episode_id) st st
             (AttributeError "'NoneType' object has no attribute 'to_dict'"));
    try done.
  - by rewrite Hm.
  - by rewrite Hm.
Qed.

(** ** GET /episodes/<id> after seeding from a short file *)




(** ** routes.py: further properties of POST /appearances *)

Lemma rating_errors_total (rating : pyval) (errors : list string) :
  ∃ m, rating_errors rating errors = Return (errors ++ m) ∧ (length m ≤ 1)%nat.
Proof.
  assert (Hone : ∀ msg : string,
            ∃ m, Return (errors ++ [msg]) = Return (errors ++ m) ∧ (length m ≤ 1)%nat)
    by (intros msg; exists [msg]; split; [done|simpl; lia]).
  assert (Hnone : ∃ m, Return errors = Return (errors ++ m) ∧ (length m ≤ 1)%nat)
    by (exists []; split; [by rewrite app_nil_r|simpl; lia]).
  unfold rating_errors.
  destruct rating as [|b|z| | | |]; unmonad; try apply Hone.
  - destruct (Z.b2z b <? 1); simpl; [apply Hone|].
    destruct (5 <? Z.b2z b); simpl; [apply Hone|apply Hnone].
  - destruct (z <? 1); simpl; [apply Hone|].
    destruct (5 <? z); simpl; [apply Hone|apply Hnone].
Qed.

Lemma spec_episode_violations_length (d : DB) (v : pyval) :
  (length (spec_episode_violations d v) ≤ 1)%nat.
Proof. destruct v; simpl; try lia. case_match; simpl; lia. Qed.

Lemma spec_guest_violations_length (d : DB) (v : pyval) :
  (length (spec_guest_violations d v) ≤ 1)%nat.
Proof. destruct v; simpl; try lia. case_match; simpl; lia. Qed.

(** X7. A request whose body is a JSON object with identifiers that are
    absent or integers of the range that the engine holds never makes
    [create_appearance] raise, whatever value the rating has (a boolean,
    a float, a string, an integer of any size...). The answer
    is either 400 with one to three messages and the state unchanged, or
    201 with exactly one row added, whose rating is between 1 and 5 and
    whose guest and episode exist. *)
Theorem create_appearance_never_faults `{Engine} (data : dict) (st : State) :
  identifier64 (default PNone (data !! "episode_id")) →
  identifier64 (default PNone (data !! "guest_id")) →
  pending st = [] →
  ∃ resp st',
    create_appearance (PDict data) st = (Return resp, st')
    ∧ ((status resp = 400 ∧ st' = st
        ∧ ∃ errors, payload resp = Json (PDict {[ "errors" := PList (PStr <$> errors) ]})
                    ∧ (1 ≤ length errors ≤ 3)%nat)
       ∨ (status resp = 201
          ∧ ∃ r g e,
              1 ≤ r ≤ 5
              ∧ is_Some (guests (db st) !! g) ∧ is_Some (episodes (db st) !! e)
              ∧ st' = with_appearance st (next_rowid (appearances (db st)))
                        (Appearance.Row r g e))).
Proof.
  intros He%identifier64_identifier Hg%identifier64_identifier Hp.
  rewrite create_appearance_phases. cbv zeta.
  destruct (rating_errors_total (default PNone (data !! "rating")) [])
    as (m & Hm & Hlen).
  rewrite Hm, (episode_errors_spec _ _ _ He), (guest_errors_spec _ _ _ Hg).
  rewrite app_nil_l in *.
  pose proof (spec_episode_violations_length (db st) (default PNone (data !! "episode_id"))).
  pose proof (spec_guest_violations_length (db st) (default PNone (data !! "guest_id"))).
  destruct ((m ++ _) ++ _) as [|msg errors] eqn:Herr.
  - apply app_eq_nil in Herr as [[-> Hse]%app_eq_nil Hsg].
    apply rating_errors_passed in Hm as (_ & Hv & r & Hr & Hrange).
    destruct He as [He|[e He]]; rewrite He in *; [done|].
    destruct Hg as [Hg|[g Hg]]; rewrite Hg in *; [done|].
    simpl in Hse, Hsg.
    destruct (episodes (db st) !! e) as [er|] eqn:Her; [|done].
    destruct (guests (db st) !! g) as [gr|] eqn:Hgr; [|done].
    rewrite (persist_success st _ r g e gr er Hp Hv Hr Hgr Her).
    eexists _, _. split; [done|]. right. split; [done|].
    exists r, g, e. by rewrite Her, Hgr.
  - eexists _, _. split; [done|]. left. split; [done|]. split; [done|].
    exists (msg :: errors). split; [done|].
    apply (f_equal length) in Herr. rewrite !length_app in Herr. simpl in *. lia.
Qed.

(** X7 with the rating [false] and an unknown guest, against the seeded
    store. *)
Lemma create_appearance_never_faults_witness :
  ∃ resp st',
    @create_appearance strict_engine
      (post [("rating", PBool false); ("episode_id", PInt 2); ("guest_id", PInt 99)])
      seeded = (Return resp, st')
    ∧ (status resp = 400 ∨ status resp = 201).
Proof.
  pose (data := list_to_map
          [("rating", PBool false); ("episode_id", PInt 2); ("guest_id", PInt 99)]
        : dict).
  assert (He : identifier64 (default PNone (data !! "episode_id")))
    by (right; exists 2; split; [reflexivity|unfold int64; lia]).
  assert (Hg : identifier64 (default PNone (data !! "guest_id")))
    by (right; exists 99; split; [reflexivity|unfold int64; lia]).
  destruct (@create_appearance_never_faults strict_engine data seeded He Hg eq_refl)
    as (resp & st' & Hc & [[Hs _]|[Hs _]]);
    exists resp, st'; (split; [exact Hc|]); [by left|by right].
Defined.

(** ** app.py: what one request can do *)

Lemma url_map_create (p : string) :
  url_map p = Some api_create_appearance → p = "/appearances".
Proof.
  unfold url_map. repeat (case_bool_decide; [done|]).
  destruct (strip_prefix _ _); [|done]. by destruct (int_converter _).
Qed.

(** X9. Only POST /appearances can change the tables: a request with
    any other method, or to any other path, leaves all three tables as
    they were. *)
Theorem only_post_appearances_writes `{Engine} (req : request) (st : State) :
  method req ≠ POST ∨ path req ≠ "/appearances" →
  db (wsgi_app req st).2 = db st.
Proof.
  intros Hreq. unfold wsgi_app.
  destruct (full_dispatch_request req st) as [resp st'] eqn:Hd. simpl.
  revert Hd. unfold full_dispatch_request.
  destruct (url_map (path req)) as [e|] eqn:Hurl; [|by intros [= _ <-]].
  destruct (allowed e (method req)) eqn:Hallowed; simpl; [|by intros [= _ <-]].
  case_bool_decide; [by intros [= _ <-]|].
  assert (Hread : (view e req st).2 = st).
  { destruct e as [| |episode_id| |]; simpl view.
    - done.
    - by rewrite get_episodes_Return.
    - apply get_episode_state.
    - by rewrite get_guests_Return.
    - apply url_map_create in Hurl. destruct Hreq as [Hm|Hp]; [|done].
      by destruct (method req). }
  destruct (view e req st) as [[r|x] st1]; simpl in Hread; subst st1.
  - by intros [= _ <-].
  - destruct e; simpl; by intros [= _ <-].
Qed.

(** X9 at GET /episodes against the seeded store. *)
Lemma only_post_appearances_writes_witness :
  db (@wsgi_app strict_engine (Request GET "/episodes" PNone) seeded).2 = db seeded.
Proof.
  apply (@only_post_appearances_writes strict_engine). by left.
Defined.

(** X10. The API only ever appends appearances. A request, in a session
    with nothing pending, leaves the episodes and the guests as they
    were and keeps every appearance row under its key with its values;
    so what GET /episodes and GET /guests answer is the same before and
    after any request. *)
Theorem api_is_append_only `{Engine} (req : request) (st : State) :
  pending st = [] →
  episodes (db (wsgi_app req st).2) = episodes (db st)
  ∧ guests (db (wsgi_app req st).2) = guests (db st)
  ∧ (∀ k a, appearances (db st) !! k = Some a →
            appearances (db (wsgi_app req st).2) !! k = Some a)
  ∧ (get_episodes (wsgi_app req st).2).1 = (get_episodes st).1
  ∧ (get_guests (wsgi_app req st).2).1 = (get_guests st).1.
Proof.
  intros Hp.
  assert (Htables : episodes (db (wsgi_app req st).2) = episodes (db st)
            ∧ guests (db (wsgi_app req st).2) = guests (db st)
            ∧ (∀ k a, appearances (db st) !! k = Some a →
                      appearances (db (wsgi_app req st).2) !! k = Some a)).
  { unfold wsgi_app.
    destruct (full_dispatch_request_db req st Hp) as [Hsame|(r & g & e & _ & Hnew)];
      destruct (full_dispatch_request req st) as [resp st']; simpl in *.
    - by rewrite Hsame.
    - rewrite Hnew. unfold with_appearance. cbn [db episodes guests appearances].
      repeat split. intros k a Hk.
      rewrite lookup_insert_ne; [done|]. intros <-.
      by rewrite next_rowid_fresh in Hk. }
  destruct Htables as (He & Hg & Ha). repeat split; [done..| |].
  - rewrite !get_episodes_Return. unfold Episode_query_order_by_number_all.
    by rewrite He.
  - rewrite !get_guests_Return. unfold Guest_query_order_by_name_all.
    by rewrite Hg.
Qed.

(** X10 at a POST that succeeds against the seeded store. *)
Lemma api_is_append_only_witness :
  let req := Request POST "/appearances"
               (post [("rating", PInt 5); ("episode_id", PInt 2); ("guest_id", PInt 3)]) in
  episodes (db (@wsgi_app strict_engine req seeded).2) = episodes (db seeded)
  ∧ guests (db (@wsgi_app strict_engine req seeded).2) = guests (db seeded).
Proof.
  intros req.
  destruct (@api_is_append_only strict_engine req seeded eq_refl) as (He & Hg & _).
  exact (conj He Hg).
Defined.

(** ** How the handlers compose *)

Lemma get_episode_found `{Engine} (episode_id : Z) (r : Episode.row) (st : State) :
  episodes (db st) !! episode_id = Some r → refs_ok (db st) →
  ∃ items : list dict,
    get_episode episode_id st
      = (Return (Response (Json (PDict
           (<["appearances" := PList (PDict <$> items)]>
              (Episode_result (Episode.Obj episode_id r))))) 200), st)
    ∧ Forall2 (nested_in_episode (db st))
              (Episode_appearances_all (Episode.Obj episode_id r) (db st)) items.
Proof.
  intros Hr Hrefs.
  destruct (mapM_total (λ a, Appearance_to_dict a true false (db st))
              (nested_in_episode (db st))
              (Episode_appearances_all (Episode.Obj episode_id r) (db st)))
    as (items & Hitems & Hnested).
  { apply Forall_forall. intros a [Ha _]%Episode_appearances_all_spec.
    destruct (Hrefs _ _ Ha) as [[g Hg] _].
    by apply (Appearance_to_dict_guest_only _ _ g). }
  exists items. split; [|done].
  unfold get_episode, Episode_query_get, Episode_to_dict. unmonad.
  rewrite ident_key_int. simpl. rewrite Hr. simpl. by rewrite Hitems.
Qed.

Lemma create_appearance_valid `{Engine} (data : dict) (st : State) (r g e : Z)
    (gr : Guest.row) (er : Episode.row) :
  data !! "rating" = Some (PInt r) → 1 ≤ r ≤ 5 →
  data !! "episode_id" = Some (PInt e) → episodes (db st) !! e = Some er →
  data !! "guest_id" = Some (PInt g) → guests (db st) !! g = Some gr →
  pending st = [] →
  create_appearance (PDict data) st
    = (Return (Response (Json (PDict
         (created_dict (next_rowid (appearances (db st))) r g e gr er))) 201),
       with_appearance st (next_rowid (appearances (db st))) (Appearance.Row r g e)).
Proof.
  intros Hdr Hr Hde Her Hdg Hgr Hp.
  pose proof (create_appearance_phases data st) as Hc. cbv zeta in Hc.
  rewrite Hdr, Hde, Hdg in Hc. simpl in Hc.
  rewrite (rating_errors_spec (PInt r) []) in Hc by done.
  rewrite (episode_errors_spec (PInt e)), (guest_errors_spec (PInt g)) in Hc
    by (right; eauto).
  simpl in Hc. rewrite bool_decide_true, Her, Hgr in Hc by done. simpl in Hc.
  by rewrite (persist_success st (PInt r) r g e gr er Hp
                (validate_rating_in_range r Hr) (bind_int_int r) Hgr Her) in Hc.
Qed.

(** X11. Every element of GET /episodes can be fetched: in a store
    without dangling references, for each episode of the listing
    GET /episodes/<id> answers 200 with the same [id], [date] and
    [number] and an added [appearances] array; and an id of the range
    that the engine holds, which no element of the listing has, is
    answered 404. *)
Theorem listing_matches_detail `{Engine} (st : State) :
  refs_ok (db st) →
  (∀ e, e ∈ Episode_query_order_by_number_all (db st) →
     ∃ items : list dict,
       get_episode (Episode.id e) st
         = (Return (Response (Json (PDict
              (<["appearances" := PList (PDict <$> items)]> (Episode_result e)))) 200),
            st)
       ∧ delete "appearances"
           (<["appearances" := PList (PDict <$> items)]> (Episode_result e))
         = Episode_result e)
  ∧ (∀ episode_id,
       int64 episode_id →
       (∀ e, e ∈ Episode_query_order_by_number_all (db st) →
             Episode.id e ≠ episode_id) →
       get_episode episode_id st
         = (Return (Response
              (Json (PDict {[ "error" := PStr "Episode not found" ]})) 404), st)).
Proof.
  intros Hrefs.
  assert (Hperm : Episode_query_order_by_number_all (db st)
                    ≡ₚ uncurry Episode.Obj <$> map_to_list (episodes (db st)))
    by apply merge_sort_Permutation.
  split.
  - intros [k r]. rewrite Hperm, Episode_objects. intros Hk.
    destruct (get_episode_found k r st Hk Hrefs) as (items & Hget & _).
    exists items. split; [done|].
    rewrite delete_insert_eq. by apply delete_id.
  - intros k _ Hk.
    destruct (episodes (db st) !! k) as [r|] eqn:Hr.
    + destruct (Hk (Episode.Obj k r)); [|done]. by rewrite Hperm, Episode_objects.
    + unfold get_episode, Episode_query_get. unmonad.
      rewrite ident_key_int. simpl. by rewrite Hr.
Qed.

(** X11 at the seeded store: episode 7 is listed and can be fetched. *)
Lemma listing_matches_detail_witness :
  ∃ items : list dict,
    @get_episode strict_engine 7 seeded
      = (Return (Response (Json (PDict
           (<["appearances" := PList (PDict <$> items)]>
              (Episode_result (Episode.Obj 7 (Episode.Row "1/19/99" 7)))))) 200),
         seeded).
Proof.
  destruct (@listing_matches_detail strict_engine seeded seeded_refs_ok) as [Hall _].
  destruct (Hall (Episode.Obj 7 (Episode.Row "1/19/99" 7))) as (items & Hget & _).
  - unfold Episode_query_order_by_number_all. rewrite merge_sort_Permutation.
    apply Episode_objects. reflexivity.
  - by exists items.
Defined.

Lemma appearance_count_insert (st : State) (k r g e : Z) :
  appearances (db st) !! k = None →
  appearance_count e (db (with_appearance st k (Appearance.Row r g e)))
    = S (appearance_count e (db st)).
Proof.
  intros Hk. unfold appearance_count, with_appearance. cbn [db appearances].
  rewrite map_filter_insert_True by done.
  apply map_size_insert_None. by rewrite map_lookup_filter_None; left.
Qed.

(** X12. A created appearance shows up in its episode. After a POST
    that passes validation, in a store without dangling references,
    GET /episodes/<episode_id> answers 200 with one more entry than
    there were appearances of the episode, and one entry has the new
    key and nests the guest of the request; the store still has no
    dangling reference. *)
Theorem created_appearance_is_listed `{Engine} (data : dict) (st : State)
    (r g e : Z) (gr : Guest.row) (er : Episode.row) :
  data !! "rating" = Some (PInt r) → 1 ≤ r ≤ 5 →
  data !! "episode_id" = Some (PInt e) → episodes (db st) !! e = Some er →
  data !! "guest_id" = Some (PInt g) → guests (db st) !! g = Some gr →
  pending st = [] → refs_ok (db st) →
  let st' := (create_appearance (PDict data) st).2 in
  refs_ok (db st')
  ∧ ∃ (items : list dict) (item : dict),
      get_episode e st'
        = (Return (Response (Json (PDict
             (<["appearances" := PList (PDict <$> items)]>
                (Episode_result (Episode.Obj e er))))) 200), st')
      ∧ length items = S (appearance_count e (db st))
      ∧ item ∈ items
      ∧ item !! "id" = Some (PInt (next_rowid (appearances (db st))))
      ∧ item !! "guest" = Some (PDict (Guest_result (Guest.Obj g gr))).
Proof.
  intros Hdr Hr Hde Her Hdg Hgr Hp Hrefs st'. subst st'.
  rewrite (create_appearance_valid data st r g e gr er) by done.
  cbn [snd]. set (k := next_rowid (appearances (db st))).
  assert (Hk : appearances (db st) !! k = None) by apply next_rowid_fresh.
  assert (Hrefs' : refs_ok (db (with_appearance st k (Appearance.Row r g e))))
    by (apply with_appearance_refs_ok; [done|by eexists..]).
  split; [done|].
  destruct (get_episode_found e er (with_appearance st k (Appearance.Row r g e)))
    as (items & Hget & Hnested); [done..|].
  assert (Hin : Appearance.Obj k (Appearance.Row r g e)
                ∈ Episode_appearances_all (Episode.Obj e er)
                    (db (with_appearance st k (Appearance.Row r g e)))).
  { apply Episode_appearances_all_spec. split; [|done].
    unfold with_appearance. cbn [db appearances Appearance.id Appearance.fields].
    apply lookup_insert_eq. }
  apply list_elem_of_lookup in Hin as [i Hi].
  destruct (Forall2_lookup_l _ _ _ _ _ Hnested Hi)
    as (item & Hitem & Hid & _ & _ & gr' & Hgr' & Hguest).
  exists items, item. split; [done|]. split; [|split; [|split; [done|]]].
  - rewrite <-(Forall2_length _ _ _ Hnested).
    rewrite (Episode_appearances_all_length (Episode.Obj e er)).
    cbn [Episode.id]. by apply appearance_count_insert.
  - apply list_elem_of_lookup. by exists i.
  - cbn [Appearance.guest_id Appearance.fields] in Hgr', Hguest.
    unfold with_appearance in Hgr'. cbn [db guests] in Hgr'.
    rewrite Hgr in Hgr'. by simplify_eq.
Qed.

(** X12 at the request of the specification against the seeded store:
    episode 2 had three appearances and has four afterwards. *)
Lemma created_appearance_is_listed_witness :
  let st' := (@create_appearance strict_engine
                (post [("rating", PInt 5); ("episode_id", PInt 2); ("guest_id", PInt 3)])
                seeded).2 in
  ∃ items : list dict,
    @get_episode strict_engine 2 st'
      = (Return (Response (Json (PDict
           (<["appearances" := PList (PDict <$> items)]>
              (Episode_result (Episode.Obj 2 (Episode.Row "1/12/99" 2)))))) 200), st')
    ∧ length items = 4%nat.
Proof.
  intros st'.
  pose (data := list_to_map
          [("rating", PInt 5); ("episode_id", PInt 2); ("guest_id", PInt 3)] : dict).
  assert (Hr : 1 ≤ 5 ≤ 5) by lia.
  assert (Hlr : data !! "rating" = Some (PInt 5)) by reflexivity.
  assert (Hle : data !! "episode_id" = Some (PInt 2)) by reflexivity.
  assert (Hlg : data !! "guest_id" = Some (PInt 3)) by reflexivity.
  assert (Hse : episodes (db seeded) !! 2 = Some (Episode.Row "1/12/99" 2))
    by reflexivity.
  assert (Hsg : guests (db seeded) !! 3
                = Some (Guest.Row "Tracey Ullman" "television actress"))
    by reflexivity.
  destruct (@created_appearance_is_listed strict_engine data seeded 5 3 2
              (Guest.Row "Tracey Ullman" "television actress")
              (Episode.Row "1/12/99" 2)
              Hlr Hr Hle Hse Hlg Hsg eq_refl seeded_refs_ok)
    as (_ & items & item & Hget & Hlen & _).
  exists items. split; [exact Hget|]. rewrite Hlen. by vm_compute.
Defined.

(** X13. Appearances are not unique per guest and episode: the same
    valid POST sent a second time is accepted again and writes a second
    row, with the same values, under another key. *)
Theorem repeated_post_creates_second_row `{Engine} (data : dict) (st : State)
    (r g e : Z) (gr : Guest.row) (er : Episode.row) :
  data !! "rating" = Some (PInt r) → 1 ≤ r ≤ 5 →
  data !! "episode_id" = Some (PInt e) → episodes (db st) !! e = Some er →
  data !! "guest_id" = Some (PInt g) → guests (db st) !! g = Some gr →
  pending st = [] →
  let k1 := next_rowid (appearances (db st)) in
  let st1 := (create_appearance (PDict data) st).2 in
  ∃ (k2 : Z) (resp : response) (st2 : State),
    create_appearance (PDict data) st1 = (Return resp, st2)
    ∧ status resp = 201
    ∧ k2 ≠ k1
    ∧ appearances (db st2) !! k1 = Some (Appearance.Row r g e)
    ∧ appearances (db st2) !! k2 = Some (Appearance.Row r g e)
    ∧ size (appearances (db st2)) = S (S (size (appearances (db st)))).
Proof.
  intros Hdr Hr Hde Her Hdg Hgr Hp k1 st1. subst st1.
  rewrite (create_appearance_valid data st r g e gr er) by done.
  cbn [snd]. fold k1.
  set (st1 := with_appearance st k1 (Appearance.Row r g e)).
  assert (Hk1 : appearances (db st) !! k1 = None) by apply next_rowid_fresh.
  assert (Hk2 : appearances (db st1) !! next_rowid (appearances (db st1)) = None)
    by apply next_rowid_fresh.
  assert (Hne : next_rowid (appearances (db st1)) ≠ k1).
  { intros Heq. rewrite Heq in Hk2. unfold st1, with_appearance in Hk2.
    cbn [db appearances] in Hk2. by rewrite lookup_insert_eq in Hk2. }
  exists (next_rowid (appearances (db st1))). eexists _, _.
  split; [by apply (create_appearance_valid data st1 r g e gr er)|].
  split; [done|]. split; [done|].
  unfold with_appearance. cbn [db appearances]. repeat split.
  - rewrite lookup_insert_ne by done. unfold st1, with_appearance.
    cbn [db appearances]. apply lookup_insert_eq.
  - apply lookup_insert_eq.
  - rewrite map_size_insert_None by done. f_equal.
    unfold st1, with_appearance. cbn [db appearances].
    by rewrite map_size_insert_None.
Qed.

(** X13 at the request of the specification against the seeded store. *)
Lemma repeated_post_creates_second_row_witness :
  let data := post [("rating", PInt 5); ("episode_id", PInt 2); ("guest_id", PInt 3)] in
  ∃ (resp : response) (st2 : State),
    @create_appearance strict_engine data
      (@create_appearance strict_engine data seeded).2 = (Return resp, st2)
    ∧ status resp = 201
    ∧ size (appearances (db st2)) = 28%nat.
Proof.
  intros data'.
  pose (data := list_to_map
          [("rating", PInt 5); ("episode_id", PInt 2); ("guest_id", PInt 3)] : dict).
  assert (Hr : 1 ≤ 5 ≤ 5) by lia.
  assert (Hlr : data !! "rating" = Some (PInt 5)) by reflexivity.
  assert (Hle : data !! "episode_id" = Some (PInt 2)) by reflexivity.
  assert (Hlg : data !! "guest_id" = Some (PInt 3)) by reflexivity.
  assert (Hse : episodes (db seeded) !! 2 = Some (Episode.Row "1/12/99" 2))
    by reflexivity.
  assert (Hsg : guests (db seeded) !! 3
                = Some (Guest.Row "Tracey Ullman" "television actress"))
    by reflexivity.
  destruct (@repeated_post_creates_second_row strict_engine data seeded 5 3 2
              (Guest.Row "Tracey Ullman" "television actress")
              (Episode.Row "1/12/99" 2)
              Hlr Hr Hle Hse Hlg Hsg eq_refl)
    as (k2 & resp & st2 & Hc & Hs & _ & _ & _ & Hsize).
  exists resp, st2. split; [exact Hc|]. split; [exact Hs|].
  rewrite Hsize. by vm_compute.
Defined.


(** ** The further properties at concrete inputs *)


(** X3 at a file whose second row has no occupation. *)
Lemma seed_database_csv_failure_witness :
  ∃ d',
    @seed_database strict_engine id
      (Csv [ {[ "name" := PStr "Ann"; "occupation" := PStr "pilot" ]};
             {[ "name" := PStr "Bob"; "occupation" := PNone ]} ] false)
      (db seeded)
    = (Return (), d')
    ∧ guests d' !! 1 = Some (Guest.Row "Ann" "pilot")
    ∧ guests d' !! 2 = Some (Guest.Row "Michael J. Fox" "actor").
Proof.
  assert (Hgood : Forall2 (λ row g, csv_guest id row = Return g)
            [ ({[ "name" := PStr "Ann"; "occupation" := PStr "pilot" ]} : dict) ]
            [ Guest.Row "Ann" "pilot" ]).
  { constructor; [reflexivity|constructor]. }
  assert (Hbad : csv_guest id ({[ "name" := PStr "Bob"; "occupation" := PNone ]} : dict)
                 = Raise (AttributeError "'NoneType' object has no attribute 'strip'"))
    by reflexivity.
  destruct (@seed_database_csv_failure strict_engine id
              [ {[ "name" := PStr "Ann"; "occupation" := PStr "pilot" ]};
                {[ "name" := PStr "Bob"; "occupation" := PNone ]} ]
              _ _ false (db seeded) Hgood
              (or_intror (ex_intro _ _ (ex_intro _ [] (ex_intro _ _
                 (conj eq_refl Hbad))))))
    as (d' & Hseed & _ & Hread & Hsample & _).
  exists d'. split; [exact Hseed|]. split.
  - apply (Hread 0%nat). simpl. lia.
  - exact (Hsample 0%nat).
Defined.

(** X6 at a store whose only appearance refers to guest 7, who does not
    exist. *)
Lemma get_episode_dangling_guest_witness :
  let st := Store (Tables {[ 1 := Episode.Row "1/11/99" 1 ]} ∅
                          {[ 1 := Appearance.Row 3 7 1 ]}) [] in
  @wsgi_app strict_engine (Request GET "/episodes/1" PNone) st
    = (Response (Json (PDict {[ "error" := PStr "Internal server error" ]})) 500, st).
Proof.
  intros st.
  assert (Hr : episodes (db st) !! 1 = Some (Episode.Row "1/11/99" 1)) by reflexivity.
  assert (Hk : appearances (db st) !! 1 = Some (Appearance.Row 3 7 1)) by reflexivity.
  assert (Hg : guests (db st) !! Appearance.guest_id (Appearance.Row 3 7 1) = None)
    by reflexivity.
  assert (Hurl : url_map (path (Request GET "/episodes/1" PNone))
                 = Some (api_get_episode 1)) by reflexivity.
  exact (proj2 (@get_episode_dangling_guest strict_engine
                  (Request GET "/episodes/1" PNone) 1 1
                  (Episode.Row "1/11/99" 1) (Appearance.Row 3 7 1) st
                  Hr Hk eq_refl Hg Hurl eq_refl)).
Defined.

(** X15 at a file with one row. *)
Lemma seed_database_short_csv_witness :
  ∃ d' k a,
    @seed_database strict_engine id
      (Csv [ {[ "name" := PStr "Ann"; "occupation" := PStr "pilot" ]} ] false)
      (db seeded)
    = (Return (), d')
    ∧ appearances d' !! k = Some a
    ∧ guests d' !! Appearance.guest_id a = None.
Proof.
  assert (Hrows : Forall2 (λ row g, csv_guest id row = Return g)
            [ ({[ "name" := PStr "Ann"; "occupation" := PStr "pilot" ]} : dict) ]
            [ Guest.Row "Ann" "pilot" ]).
  { constructor; [reflexivity|constructor]. }
  assert (Hlen : (length [ Guest.Row "Ann" "pilot" ] < 8)%nat) by (simpl; lia).
  destruct (@seed_database_short_csv strict_engine id _ _ (db seeded) Hrows Hlen)
    as (d' & k & a & Hseed & Hk & Hg & _).
  exists d', k, a. exact (conj Hseed (conj Hk Hg)).
Defined.
